(** * Cafe Delights API: a shallow embedding of [backend/server.py]

    The request handlers of the bakery API are translated into functions over
    an explicit database state.  A handler of the source that awaits the
    document store becomes a function [db -> ... -> result A * db]: it returns
    what the endpoint answers (or the exception it raises) together with the
    state of the four collections afterwards.

    Conventions.
    - Clock readings and POSIX timestamps are integers counting microseconds
      since the epoch, the resolution of [datetime]; a [datetime] is such an
      instant together with its being zone-aware or naive.
    - [float] is binary64, as in Python; prices and totals are computed with
      the IEEE operations.
    - A [str] is the sequence of the bytes of its UTF-8 encoding.
    - Every [uuid.uuid4()] and every reading of the clock by a handler is an
      argument of its model.
    - The store is an ideal one: it is in reach and takes every document
      that the driver can encode.  A document is stored in its BSON form: its
      datetimes are cut down to whole milliseconds and, the client being made
      with the driver's defaults, come back naive.
    - [hashlib.sha256], the HS256 signature of the [jwt] package, the
      summation algorithm of the interpreter's [sum] and the driver's check of
      the keys it inserts are parameters of the development. *)

From Stdlib Require Import ZArith List String Ascii Bool Lia Floats.
From Stdlib Require Import Permutation Sorted.
Import ListNotations.

Local Open Scope string_scope.
Local Open Scope Z_scope.

(** ** Instants *)

Definition seconds (n : Z) : Z := n * 1000000.

(** A [datetime]: the instant it denotes, in microseconds since the epoch,
    and whether it carries the zone [timezone.utc] or is naive. *)
Record datetime := mkdatetime {
  instant : Z;
  aware : bool
}.

(** [datetime.now(timezone.utc)] when the clock reads [clock]. *)
Definition datetime_now (clock : Z) : datetime :=
  {| instant := clock; aware := true |}.

(** A datetime as the store keeps it and gives it back: the instant is held
    as a whole number of milliseconds, and the zone is not held at all. *)
Definition bson_datetime (d : datetime) : datetime :=
  {| instant := instant d / 1000 * 1000; aware := false |}.

(** ** Enumerations *)

Inductive ProductCategory :=
| COFFEE | TEA | PASTRY | SANDWICH | CAKE | COOKIE | BEVERAGE.

Inductive OrderStatus :=
| PENDING | CONFIRMED | PREPARING | READY | COMPLETED | CANCELLED.

Inductive UserRole :=
| CUSTOMER | ADMIN.

Definition ProductCategory_eqb (a b : ProductCategory) : bool :=
  match a, b with
  | COFFEE, COFFEE | TEA, TEA | PASTRY, PASTRY | SANDWICH, SANDWICH
  | CAKE, CAKE | COOKIE, COOKIE | BEVERAGE, BEVERAGE => true
  | _, _ => false
  end.

Definition OrderStatus_eqb (a b : OrderStatus) : bool :=
  match a, b with
  | PENDING, PENDING | CONFIRMED, CONFIRMED | PREPARING, PREPARING
  | READY, READY | COMPLETED, COMPLETED | CANCELLED, CANCELLED => true
  | _, _ => false
  end.

Definition UserRole_eqb (a b : UserRole) : bool :=
  match a, b with
  | CUSTOMER, CUSTOMER | ADMIN, ADMIN => true
  | _, _ => false
  end.

(** The string value of a role, as it is written into a token. *)
Definition UserRole_value (r : UserRole) : string :=
  match r with
  | CUSTOMER => "customer"
  | ADMIN => "admin"
  end.

(** ** Models *)

(** The values of [Dict[str, Any]] that occur in nutritional attributes. *)
Inductive Any :=
| AnyInt (z : Z)
| AnyFloat (f : float)
| AnyStr (s : string).

Module Product.
Record t := mk {
    id : string;
    name : string;
    description : string;
    price : float;
    category : ProductCategory;
    image_url : string;
    available : bool;
    ingredients : list string;
    nutritional_info : list (string * Any);
    created_at : datetime
  }.
End Product.

Module ProductCreate.
Record t := mk {
    name : string;
    description : string;
    price : float;
    category : ProductCategory;
    image_url : string;
    ingredients : list string;
    nutritional_info : list (string * Any)
  }.
End ProductCreate.

Module User.
Record t := mk {
    id : string;
    email : string;
    name : string;
    role : UserRole;
    phone : option string;
    address : option string;
    created_at : datetime
  }.
End User.

Module UserCreate.
Record t := mk {
    email : string;
    name : string;
    password : string;
    phone : option string;
    address : option string
  }.
End UserCreate.

Module UserLogin.
Record t := mk {
    email : string;
    password : string
  }.
End UserLogin.

Module OrderItem.
Record t := mk {
    product_id : string;
    quantity : Z;
    price : float;
    product_name : string
  }.
End OrderItem.

Module Order.
Record t := mk {
    id : string;
    user_id : string;
    items : list OrderItem.t;
    total_amount : float;
    status : OrderStatus;
    payment_method : string;
    delivery_address : option string;
    special_instructions : option string;
    created_at : datetime;
    updated_at : datetime
  }.
End Order.

Module OrderCreate.
Record t := mk {
    items : list OrderItem.t;
    delivery_address : option string;
    special_instructions : option string
  }.
End OrderCreate.

Module Review.
Record t := mk {
    id : string;
    product_id : string;
    user_id : string;
    user_name : string;
    rating : Z;
    comment : string;
    created_at : datetime
  }.
End Review.

Module ReviewCreate.
Record t := mk {
    product_id : string;
    rating : Z;
    comment : string
  }.
End ReviewCreate.

(** ** The document store *)

(** A document of [db.users].  Two places write this collection:
    [init_sample_data], whose dictionary has a ["password"] key, and
    [register], which inserts [user_obj.dict()].  [password = None] stands for
    a document without the ["password"] key; [phone] and [address] are [None]
    when the key is missing or holds [None]. *)
Module UserDocument.
Record t := mk {
    id : string;
    email : string;
    name : string;
    password : option string;
    role : UserRole;
    phone : option string;
    address : option string;
    created_at : datetime
  }.
End UserDocument.

(** The other collections hold the dictionaries of their models, in insertion
    order. *)
Record db := mkdb {
  users : list UserDocument.t;
  products : list Product.t;
  orders : list Order.t;
  reviews : list Review.t
}.

Definition empty_db : db := mkdb [] [] [] [].

(** [find_one]: the first document that satisfies the filter. *)
Definition find_one {A} (query : A -> bool) (collection : list A) : option A :=
  List.find query collection.

(** [count_documents]. *)
Definition count_documents {A} (query : A -> bool) (collection : list A) : Z :=
  Z.of_nat (List.length (List.filter query collection)).

(** [insert_one] appends the document in its stored form. *)
Definition insert_one {A} (bson : A -> A) (document : A) (collection : list A) : list A :=
  collection ++ [bson document].

(** The stored form of the documents of each collection. *)
Definition bson_user (d : UserDocument.t) : UserDocument.t :=
  {| UserDocument.id := UserDocument.id d;
     UserDocument.email := UserDocument.email d;
     UserDocument.name := UserDocument.name d;
     UserDocument.password := UserDocument.password d;
     UserDocument.role := UserDocument.role d;
     UserDocument.phone := UserDocument.phone d;
     UserDocument.address := UserDocument.address d;
     UserDocument.created_at := bson_datetime (UserDocument.created_at d) |}.

Definition bson_product (p : Product.t) : Product.t :=
  {| Product.id := Product.id p;
     Product.name := Product.name p;
     Product.description := Product.description p;
     Product.price := Product.price p;
     Product.category := Product.category p;
     Product.image_url := Product.image_url p;
     Product.available := Product.available p;
     Product.ingredients := Product.ingredients p;
     Product.nutritional_info := Product.nutritional_info p;
     Product.created_at := bson_datetime (Product.created_at p) |}.

Definition bson_order (o : Order.t) : Order.t :=
  {| Order.id := Order.id o;
     Order.user_id := Order.user_id o;
     Order.items := Order.items o;
     Order.total_amount := Order.total_amount o;
     Order.status := Order.status o;
     Order.payment_method := Order.payment_method o;
     Order.delivery_address := Order.delivery_address o;
     Order.special_instructions := Order.special_instructions o;
     Order.created_at := bson_datetime (Order.created_at o);
     Order.updated_at := bson_datetime (Order.updated_at o) |}.

Definition bson_review (r : Review.t) : Review.t :=
  {| Review.id := Review.id r;
     Review.product_id := Review.product_id r;
     Review.user_id := Review.user_id r;
     Review.user_name := Review.user_name r;
     Review.rating := Review.rating r;
     Review.comment := Review.comment r;
     Review.created_at := bson_datetime (Review.created_at r) |}.

(** ** Outcomes *)

Inductive exn :=
| HTTPException (status_code : Z) (detail : string)
| RequestValidationError
| ValidationError
| KeyError (key : string)
| OverflowError
| InvalidDocument.

Inductive result (A : Type) :=
| Ok (a : A)
| Raise (e : exn).
Arguments Ok {A} a.
Arguments Raise {A} e.

(** ** The [$regex] operator of the store, with option [i]

    [search_products] hands the query string to the store as a regular
    expression.  The model covers the patterns made of ordinary characters
    and of the wildcard [.], over printable ASCII text; on anything else
    (the other metacharacters, control or non-ASCII characters) it gives
    [None], which says nothing about what the store answers. *)

Inductive atom :=
| Char (c : ascii)
| Dot.

Definition printable (c : ascii) : bool :=
  let n := nat_of_ascii c in
  (Nat.leb 32 n && Nat.leb n 126)%bool.

Definition metacharacters : list ascii :=
  list_ascii_of_string "\^$.|?*+()[]{}".

Definition metacharacter (c : ascii) : bool :=
  existsb (Ascii.eqb c) metacharacters.

Fixpoint regex_compile (pattern : string) : option (list atom) :=
  match pattern with
  | EmptyString => Some []
  | String c rest =>
      match regex_compile rest with
      | None => None
      | Some re =>
          if Ascii.eqb c "." then Some (Dot :: re)
          else if (metacharacter c || negb (printable c))%bool then None
          else Some (Char c :: re)
      end
  end.

(** Case folding of the ASCII letters. *)
Definition lower (c : ascii) : ascii :=
  let n := nat_of_ascii c in
  if (Nat.leb 65 n && Nat.leb n 90)%bool then ascii_of_nat (n + 32) else c.

Definition atom_matches (a : atom) (c : ascii) : bool :=
  match a with
  | Char x => Ascii.eqb (lower x) (lower c)
  | Dot => negb (Ascii.eqb c "010")
  end.

(** The pattern matches at the start of the subject. *)
Fixpoint match_here (re : list atom) (subject : string) : bool :=
  match re, subject with
  | [], _ => true
  | _ :: _, EmptyString => false
  | a :: re', String c subject' => (atom_matches a c && match_here re' subject')%bool
  end.

(** The pattern matches somewhere in the subject (it is not anchored). *)
Fixpoint match_anywhere (re : list atom) (subject : string) : bool :=
  (match_here re subject ||
   match subject with
   | EmptyString => false
   | String _ subject' => match_anywhere re subject'
   end)%bool.

Definition string_forallb (f : ascii -> bool) (s : string) : bool :=
  forallb f (list_ascii_of_string s).

(** ** Tokens

    A compact JWS is kept as its payload and its signature; [NotJWS] stands
    for a credential that does not parse as a JWS with an HS256 header.  The
    payload is the JSON object the token carries, for the tokens whose only
    claims are the four that [create_token] writes: [user_id], [email] and
    [role] are [None] when the key is missing or [null]; [exp] is a number
    when the key is there (in microseconds, the model's unit of time) and
    [None] when the key is missing.  The tokens that carry an [exp] that is
    not a number ([null] included) or further registered claims ([nbf],
    [iat], [aud]), which the [jwt] package also validates, are not among
    them: [create_token] writes none of these. *)

Module Payload.
Record t := mk {
    user_id : option string;
    email : option string;
    role : option string;
    exp : option Z
  }.
End Payload.

Inductive token :=
| NotJWS
| JWS (payload : Payload.t) (signature : string).

Inductive jwt_result :=
| Decoded (payload : Payload.t)
| ExpiredSignatureError
| InvalidTokenError.

Definition SECRET_KEY : string := "your-secret-key-change-in-production".

(** ** Numbers *)

(** Conversion of a Python [int] to [float]: round to nearest even, and
    [OverflowError] ([None]) when the integer is too large. *)
Definition float_of_int (n : Z) : option float :=
  let f := SF2Prim (binary_normalize prec emax n 0 false) in
  if is_infinity f then None else Some f.

(** [sum] over floats.  The first item is added to the start value [0];
    the others are added from left to right by the loop of the interpreter.
    Up to CPython 3.11 the loop is the plain addition [sum_loop]; from
    CPython 3.12 it is [cs_loop], which carries beside the running sum [hi]
    the accumulated rounding errors [lo] of the additions (Neumaier's
    algorithm) and adds them at the end. *)
Fixpoint sum_loop (f_result : float) (xs : list float) : float :=
  match xs with
  | [] => f_result
  | x :: rest => sum_loop (f_result + x)%float rest
  end.

Definition cs_add (total : float * float) (x : float) : float * float :=
  let (hi, lo) := total in
  let t := (hi + x)%float in
  if (abs x <=? abs hi)%float
  then (t, (lo + ((hi - t) + x))%float)
  else (t, (lo + ((x - t) + hi))%float).

Definition cs_to_double (total : float * float) : float :=
  let (hi, lo) := total in
  if (negb (is_zero lo) && is_finite lo)%bool then (hi + lo)%float else hi.

Fixpoint cs_loop (total : float * float) (xs : list float) : float :=
  match xs with
  | [] => cs_to_double total
  | x :: rest => cs_loop (cs_add total x) rest
  end.

Definition py_sum (compensated : bool) (xs : list float) : float :=
  match xs with
  | [] => 0%float
  | x :: rest =>
      let first := (0 + x)%float in
      if compensated then cs_loop (first, 0%float) rest
      else sum_loop first rest
  end.

(** The integers a document can hold are the signed 64-bit ones; the driver
    raises [OverflowError] on the others. *)
Definition bson_int64 (n : Z) : bool :=
  ((- 2 ^ 63 <=? n) && (n <? 2 ^ 63))%bool.

(** Encoding a [Dict[str, Any]]: the entries are taken in order; a key that
    the driver refuses raises [InvalidDocument], an integer outside 64 bits
    [OverflowError].  [None] says that the dictionary can be stored.  Every
    driver refuses a key that holds a NUL character; [check_keys] says
    whether it also refuses, in an insertion, a key that starts with [$] or
    holds a dot, as PyMongo did up to version 3. *)
Definition bson_key (check_keys : bool) (key : string) : bool :=
  let chars := list_ascii_of_string key in
  (negb (existsb (Ascii.eqb "000") chars) &&
   negb (check_keys &&
         (match key with String "$" _ => true | _ => false end ||
          existsb (Ascii.eqb ".") chars)))%bool.

Definition bson_value (v : Any) : bool :=
  match v with
  | AnyInt z => bson_int64 z
  | AnyFloat _ | AnyStr _ => true
  end.

Fixpoint bson_dict (check_keys : bool) (d : list (string * Any)) : option exn :=
  match d with
  | [] => None
  | (key, v) :: rest =>
      if negb (bson_key check_keys key) then Some InvalidDocument
      else if negb (bson_value v) then Some OverflowError
      else bson_dict check_keys rest
  end.

Section Server.

(** [hashlib.sha256(data).hexdigest()]. *)
Variable sha256_hexdigest : string -> string.

(** The HS256 signature of a payload under a key. *)
Variable HS256 : string -> Payload.t -> string.

(** Whether the interpreter is CPython 3.12 or later, whose [sum] over floats
    is compensated. *)
Variable compensated_sum : bool.

(** Whether the driver checks the keys of the documents it inserts
    (PyMongo 3) or not (PyMongo 4). *)
Variable check_keys : bool.

(** ** Utility functions *)

Definition hash_password (password : string) : string :=
  sha256_hexdigest password.

Definition jwt_encode (payload : Payload.t) (key : string) : token :=
  JWS payload (HS256 key payload).

(** [jwt.decode(token, key, algorithms=["HS256"])] at the instant [now]: the
    signature is checked first, then the expiry, whose value is truncated to
    whole seconds before it is compared with the clock. *)
Definition jwt_decode (credentials : token) (key : string) (now : Z) : jwt_result :=
  match credentials with
  | NotJWS => InvalidTokenError
  | JWS payload signature =>
      if negb (String.eqb signature (HS256 key payload)) then InvalidTokenError
      else
        match Payload.exp payload with
        | None => Decoded payload
        | Some exp =>
            if seconds (Z.quot exp 1000000) <=? now then ExpiredSignatureError
            else Decoded payload
        end
  end.

Definition create_token (user_id email role : string) (now : Z) : token :=
  let payload :=
    {| Payload.user_id := Some user_id;
       Payload.email := Some email;
       Payload.role := Some role;
       Payload.exp := Some (now + seconds 86400) |} in
  jwt_encode payload SECRET_KEY.

(** The [User] built from the keys of a document of [db.users]: the keys
    that are not fields of [User] are ignored. *)
Definition User_of_document (user : UserDocument.t) : User.t :=
  {| User.id := UserDocument.id user;
     User.email := UserDocument.email user;
     User.name := UserDocument.name user;
     User.role := UserDocument.role user;
     User.phone := UserDocument.phone user;
     User.address := UserDocument.address user;
     User.created_at := UserDocument.created_at user |}.

(** [user_obj.dict()]: the fields of [User], none of which is a password. *)
Definition User_dict (user_obj : User.t) : UserDocument.t :=
  {| UserDocument.id := User.id user_obj;
     UserDocument.email := User.email user_obj;
     UserDocument.name := User.name user_obj;
     UserDocument.password := None;
     UserDocument.role := User.role user_obj;
     UserDocument.phone := User.phone user_obj;
     UserDocument.address := User.address user_obj;
     UserDocument.created_at := User.created_at user_obj |}.

(** The [User] built from the keys of [user_dict] in [register]: [id] and
    [created_at] come from their default factories, [role] from its default,
    and the ["password"] entry, which [User] does not declare, is dropped. *)
Definition User_of_UserCreate_dict (user_dict : UserCreate.t)
    (uuid : string) (now : Z) : User.t :=
  {| User.id := uuid;
     User.email := UserCreate.email user_dict;
     User.name := UserCreate.name user_dict;
     User.role := CUSTOMER;
     User.phone := UserCreate.phone user_dict;
     User.address := UserCreate.address user_dict;
     User.created_at := datetime_now now |}.

Definition get_current_user (s : db) (now : Z) (credentials : token) : result User.t :=
  match jwt_decode credentials SECRET_KEY now with
  | ExpiredSignatureError => Raise (HTTPException 401 "Token expired")
  | InvalidTokenError => Raise (HTTPException 401 "Invalid token")
  | Decoded payload =>
      match Payload.user_id payload with
      | None => Raise (HTTPException 401 "Invalid token")
      | Some user_id =>
          match find_one (fun d => String.eqb (UserDocument.id d) user_id) (users s) with
          | None => Raise (HTTPException 401 "User not found")
          | Some user => Ok (User_of_document user)
          end
      end
  end.

(** [Depends(get_current_user)]: the endpoint runs on the account the
    credential resolves to, or the request ends with the exception of the
    dependency. *)
Definition Depends_get_current_user {A} (s : db) (now : Z) (credentials : token)
    (endpoint : User.t -> result A * db) : result A * db :=
  match get_current_user s now credentials with
  | Ok current_user => endpoint current_user
  | Raise e => (Raise e, s)
  end.

(** ** Sample data *)

Definition sample_product (uuid name description : string) (price : float)
    (category : ProductCategory) (image_url : string)
    (ingredients : list string) (nutritional_info : list (string * Any))
    (now : Z) : Product.t :=
  {| Product.id := uuid;
     Product.name := name;
     Product.description := description;
     Product.price := price;
     Product.category := category;
     Product.image_url := image_url;
     Product.available := true;
     Product.ingredients := ingredients;
     Product.nutritional_info := nutritional_info;
     Product.created_at := datetime_now now |}.

Definition sample_products (uuid4 : nat -> string) (now : nat -> Z) : list Product.t :=
  [ sample_product (uuid4 0%nat) "Espresso"
      "Rich and bold espresso shot made from premium coffee beans"
      2.50%float COFFEE
      "https://images.unsplash.com/photo-1541167760496-1628856ab772?w=400&h=300&fit=crop"
      ["coffee beans"; "water"]
      [("calories", AnyInt 5); ("caffeine_mg", AnyInt 63)] (now 0%nat);
    sample_product (uuid4 1%nat) "Cappuccino"
      "Perfect balance of espresso, steamed milk, and foam"
      4.25%float COFFEE
      "https://images.unsplash.com/photo-1572442388796-11668a67e53d?w=400&h=300&fit=crop"
      ["coffee beans"; "milk"; "milk foam"]
      [("calories", AnyInt 120); ("caffeine_mg", AnyInt 63)] (now 1%nat);
    sample_product (uuid4 2%nat) "Latte"
      "Smooth espresso with steamed milk and light foam"
      4.50%float COFFEE
      "https://images.unsplash.com/photo-1561882468-9110e03e0f78?w=400&h=300&fit=crop"
      ["coffee beans"; "steamed milk"]
      [("calories", AnyInt 150); ("caffeine_mg", AnyInt 63)] (now 2%nat);
    sample_product (uuid4 3%nat) "Croissant"
      "Buttery, flaky French pastry perfect for breakfast"
      3.50%float PASTRY
      "https://images.unsplash.com/photo-1555507036-ab794f27da6a?w=400&h=300&fit=crop"
      ["flour"; "butter"; "yeast"; "milk"; "eggs"]
      [("calories", AnyInt 231); ("fat_g", AnyInt 12)] (now 3%nat);
    sample_product (uuid4 4%nat) "Blueberry Muffin"
      "Fresh baked muffin loaded with juicy blueberries"
      3.25%float PASTRY
      "https://images.unsplash.com/photo-1607958996333-41aef7caefaa?w=400&h=300&fit=crop"
      ["flour"; "blueberries"; "sugar"; "eggs"; "butter"]
      [("calories", AnyInt 265); ("sugar_g", AnyInt 18)] (now 4%nat);
    sample_product (uuid4 5%nat) "Club Sandwich"
      "Triple-decker with turkey, bacon, lettuce, and tomato"
      8.75%float SANDWICH
      "https://images.unsplash.com/photo-1567234669003-dce7a7a88821?w=400&h=300&fit=crop"
      ["bread"; "turkey"; "bacon"; "lettuce"; "tomato"; "mayo"]
      [("calories", AnyInt 450); ("protein_g", AnyInt 28)] (now 5%nat);
    sample_product (uuid4 6%nat) "Chocolate Cake"
      "Rich, moist chocolate cake with chocolate frosting"
      5.50%float CAKE
      "https://images.unsplash.com/photo-1578985545062-69928b1d9587?w=400&h=300&fit=crop"
      ["flour"; "cocoa"; "sugar"; "eggs"; "butter"; "chocolate"]
      [("calories", AnyInt 365); ("sugar_g", AnyInt 35)] (now 6%nat) ].

Definition admin_user (uuid : string) (now : Z) : UserDocument.t :=
  {| UserDocument.id := uuid;
     UserDocument.email := "admin@cafe.com";
     UserDocument.name := "Admin User";
     UserDocument.password := Some (hash_password "admin123");
     UserDocument.role := ADMIN;
     UserDocument.phone := None;
     UserDocument.address := None;
     UserDocument.created_at := datetime_now now |}.

(** [uuid4 k] and [now k] are the [k]-th identifier drawn and the [k]-th
    clock reading of the call. *)
Definition init_sample_data (s : db) (uuid4 : nat -> string) (now : nat -> Z) : db :=
  if 0 <? count_documents (fun _ : Product.t => true) (products s) then s
  else
    {| users := insert_one bson_user (admin_user (uuid4 7%nat) (now 7%nat)) (users s);
       products := products s ++ map bson_product (sample_products uuid4 now);
       orders := orders s;
       reviews := reviews s |}.

(** ** Product endpoints *)

Definition get_products (s : db) (category : option ProductCategory) : list Product.t :=
  let query (p : Product.t) :=
    (Product.available p &&
     match category with
     | Some c => ProductCategory_eqb (Product.category p) c
     | None => true
     end)%bool in
  List.filter query (products s).

Definition get_product (s : db) (product_id : string) : result Product.t :=
  match find_one (fun p => String.eqb (Product.id p) product_id) (products s) with
  | None => Raise (HTTPException 404 "Product not found")
  | Some product => Ok product
  end.

Definition create_product (s : db) (uuid : string) (now : Z)
    (product : ProductCreate.t) (current_user : User.t) : result Product.t * db :=
  if negb (UserRole_eqb (User.role current_user) ADMIN) then
    (Raise (HTTPException 403 "Admin access required"), s)
  else
    let product_obj :=
      {| Product.id := uuid;
         Product.name := ProductCreate.name product;
         Product.description := ProductCreate.description product;
         Product.price := ProductCreate.price product;
         Product.category := ProductCreate.category product;
         Product.image_url := ProductCreate.image_url product;
         Product.available := true;
         Product.ingredients := ProductCreate.ingredients product;
         Product.nutritional_info := ProductCreate.nutritional_info product;
         Product.created_at := datetime_now now |} in
    match bson_dict check_keys (Product.nutritional_info product_obj) with
    | Some e => (Raise e, s)
    | None =>
        (Ok product_obj,
         {| users := users s;
            products := insert_one bson_product product_obj (products s);
            orders := orders s;
            reviews := reviews s |})
    end.

(** ** User endpoints *)

(** The answer of [register] and [login]: the token and the user. *)
Definition register (s : db) (uuid : string) (now now' : Z)
    (user : UserCreate.t) : result (token * User.t) * db :=
  match find_one (fun d => String.eqb (UserDocument.email d) (UserCreate.email user)) (users s) with
  | Some _ => (Raise (HTTPException 400 "Email already registered"), s)
  | None =>
      let user_dict :=
        {| UserCreate.email := UserCreate.email user;
           UserCreate.name := UserCreate.name user;
           UserCreate.password := hash_password (UserCreate.password user);
           UserCreate.phone := UserCreate.phone user;
           UserCreate.address := UserCreate.address user |} in
      let user_obj := User_of_UserCreate_dict user_dict uuid now in
      let s' :=
        {| users := insert_one bson_user (User_dict user_obj) (users s);
           products := products s;
           orders := orders s;
           reviews := reviews s |} in
      let token :=
        create_token (User.id user_obj) (User.email user_obj)
          (UserRole_value (User.role user_obj)) now' in
      (Ok (token, user_obj), s')
  end.

(** [user["password"]] raises [KeyError] on a document without that key. *)
Definition login (s : db) (now : Z)
    (credentials : UserLogin.t) : result (token * User.t) * db :=
  match find_one (fun d => String.eqb (UserDocument.email d) (UserLogin.email credentials)) (users s) with
  | None => (Raise (HTTPException 401 "Invalid credentials"), s)
  | Some user =>
      match UserDocument.password user with
      | None => (Raise (KeyError "password"), s)
      | Some digest =>
          if negb (String.eqb digest (hash_password (UserLogin.password credentials))) then
            (Raise (HTTPException 401 "Invalid credentials"), s)
          else
            let token :=
              create_token (UserDocument.id user) (UserDocument.email user)
                (UserRole_value (UserDocument.role user)) now in
            (Ok (token, User_of_document user), s)
      end
  end.

Definition get_profile (current_user : User.t) : User.t :=
  current_user.

(** ** Order endpoints *)

(** [item.price * item.quantity]: the quantity is converted to [float]. *)
Definition line_total (item : OrderItem.t) : option float :=
  match float_of_int (OrderItem.quantity item) with
  | Some q => Some (PrimFloat.mul (OrderItem.price item) q)
  | None => None
  end.

Fixpoint line_totals (items : list OrderItem.t) : option (list float) :=
  match items with
  | [] => Some []
  | item :: rest =>
      match line_total item, line_totals rest with
      | Some x, Some xs => Some (x :: xs)
      | _, _ => None
      end
  end.

Definition create_order (s : db) (uuid : string) (now now' : Z)
    (order : OrderCreate.t) (current_user : User.t) : result Order.t * db :=
  match line_totals (OrderCreate.items order) with
  | None => (Raise OverflowError, s)
  | Some totals =>
      let total_amount := py_sum compensated_sum totals in
      let order_obj :=
        {| Order.id := uuid;
           Order.user_id := User.id current_user;
           Order.items := OrderCreate.items order;
           Order.total_amount := total_amount;
           Order.status := PENDING;
           Order.payment_method := "card";
           Order.delivery_address := OrderCreate.delivery_address order;
           Order.special_instructions := OrderCreate.special_instructions order;
           Order.created_at := datetime_now now;
           Order.updated_at := datetime_now now' |} in
      if forallb (fun item => bson_int64 (OrderItem.quantity item)) (OrderCreate.items order) then
        (Ok order_obj,
         {| users := users s;
            products := products s;
            orders := insert_one bson_order order_obj (orders s);
            reviews := reviews s |})
      else (Raise OverflowError, s)
  end.

(** [.sort("created_at", -1)]: the documents by decreasing creation time.
    The store does not fix the order of documents with equal keys; the model
    keeps them in the order of the collection. *)
Fixpoint insert_desc {A} (key : A -> Z) (d : A) (sorted : list A) : list A :=
  match sorted with
  | [] => [d]
  | x :: rest =>
      if key x <=? key d then d :: x :: rest
      else x :: insert_desc key d rest
  end.

Fixpoint sort_desc {A} (key : A -> Z) (collection : list A) : list A :=
  match collection with
  | [] => []
  | d :: rest => insert_desc key d (sort_desc key rest)
  end.

Definition get_orders (s : db) (current_user : User.t) : list Order.t :=
  let query (o : Order.t) :=
    if UserRole_eqb (User.role current_user) CUSTOMER
    then String.eqb (Order.user_id o) (User.id current_user)
    else true in
  sort_desc (fun o => instant (Order.created_at o)) (List.filter query (orders s)).

Definition get_order (s : db) (order_id : string) (current_user : User.t) : result Order.t :=
  match find_one (fun o => String.eqb (Order.id o) order_id) (orders s) with
  | None => Raise (HTTPException 404 "Order not found")
  | Some order =>
      if (UserRole_eqb (User.role current_user) CUSTOMER &&
          negb (String.eqb (Order.user_id order) (User.id current_user)))%bool
      then Raise (HTTPException 403 "Access denied")
      else Ok order
  end.

(** [update_one]: the update is applied to the first document that satisfies
    the filter; the second component is [matched_count]. *)
Fixpoint update_one {A} (query : A -> bool) (set : A -> A) (collection : list A) : list A * Z :=
  match collection with
  | [] => ([], 0)
  | d :: rest =>
      if query d then (set d :: rest, 1)
      else let (rest', matched_count) := update_one query set rest in
           (d :: rest', matched_count)
  end.

(** [{"$set": {"status": status, "updated_at": updated_at}}]: the new time is
    written in its stored form. *)
Definition set_status (status : OrderStatus) (updated_at : datetime) (o : Order.t) : Order.t :=
  {| Order.id := Order.id o;
     Order.user_id := Order.user_id o;
     Order.items := Order.items o;
     Order.total_amount := Order.total_amount o;
     Order.status := status;
     Order.payment_method := Order.payment_method o;
     Order.delivery_address := Order.delivery_address o;
     Order.special_instructions := Order.special_instructions o;
     Order.created_at := Order.created_at o;
     Order.updated_at := bson_datetime updated_at |}.

Definition update_order_status (s : db) (now : Z) (order_id : string)
    (status : OrderStatus) (current_user : User.t) : result string * db :=
  if negb (UserRole_eqb (User.role current_user) ADMIN) then
    (Raise (HTTPException 403 "Admin access required"), s)
  else
    let (orders', matched_count) :=
      update_one (fun o => String.eqb (Order.id o) order_id)
        (set_status status (datetime_now now)) (orders s) in
    let s' :=
      {| users := users s;
         products := products s;
         orders := orders';
         reviews := reviews s |} in
    if matched_count =? 0 then (Raise (HTTPException 404 "Order not found"), s')
    else (Ok "Order status updated", s').

(** ** Review endpoints *)

(** [Field(..., ge=1, le=5)]. *)
Definition rating_in_range (rating : Z) : bool :=
  ((1 <=? rating) && (rating <=? 5))%bool.

(** Validation of the request body against [ReviewCreate]. *)
Definition ReviewCreate_validate (body : ReviewCreate.t) : result ReviewCreate.t :=
  if rating_in_range (ReviewCreate.rating body) then Ok body
  else Raise RequestValidationError.

Definition create_review (s : db) (uuid : string) (now : Z)
    (review : ReviewCreate.t) (current_user : User.t) : result Review.t * db :=
  match find_one (fun p => String.eqb (Product.id p) (ReviewCreate.product_id review)) (products s) with
  | None => (Raise (HTTPException 404 "Product not found"), s)
  | Some _ =>
      if rating_in_range (ReviewCreate.rating review) then
        let review_obj :=
          {| Review.id := uuid;
             Review.product_id := ReviewCreate.product_id review;
             Review.user_id := User.id current_user;
             Review.user_name := User.name current_user;
             Review.rating := ReviewCreate.rating review;
             Review.comment := ReviewCreate.comment review;
             Review.created_at := datetime_now now |} in
        (Ok review_obj,
         {| users := users s;
            products := products s;
            orders := orders s;
            reviews := insert_one bson_review review_obj (reviews s) |})
      else (Raise ValidationError, s)
  end.

Definition get_product_reviews (s : db) (product_id : string) : list Review.t :=
  sort_desc (fun r => instant (Review.created_at r))
    (List.filter (fun r => String.eqb (Review.product_id r) product_id) (reviews s)).

(** ** Search endpoint *)

(** The disjunction of two answers, either of which may be outside the
    model. *)
Definition or3 (a b : option bool) : option bool :=
  match a, b with
  | Some true, _ | _, Some true => Some true
  | Some false, Some false => Some false
  | _, _ => None
  end.

Definition regex_on (re : list atom) (subject : string) : option bool :=
  if string_forallb printable subject then Some (match_anywhere re subject) else None.

(** The filter of [search_products] on one product. *)
Definition search_query (re : list atom) (p : Product.t) : option bool :=
  if Product.available p then
    or3 (regex_on re (Product.name p)) (regex_on re (Product.description p))
  else Some false.

Fixpoint find_all {A} (query : A -> option bool) (collection : list A) : option (list A) :=
  match collection with
  | [] => Some []
  | d :: rest =>
      match query d, find_all query rest with
      | Some true, Some ds => Some (d :: ds)
      | Some false, Some ds => Some ds
      | _, _ => None
      end
  end.

Definition search_products (s : db) (q : string) : option (list Product.t) :=
  match regex_compile q with
  | None => None
  | Some re => find_all (search_query re) (products s)
  end.

(** ** Dashboard endpoint *)

(** The dictionary the dashboard answers. *)
Record stats := mkstats {
  total_products : Z;
  total_orders : Z;
  total_users : Z;
  pending_orders : Z
}.

Definition get_dashboard_stats (s : db) (current_user : User.t) : result stats :=
  if negb (UserRole_eqb (User.role current_user) ADMIN) then
    Raise (HTTPException 403 "Admin access required")
  else
    Ok {| total_products := count_documents Product.available (products s);
          total_orders := count_documents (fun _ => true) (orders s);
          total_users :=
            count_documents (fun d => UserRole_eqb (UserDocument.role d) CUSTOMER) (users s);
          pending_orders :=
            count_documents (fun o => OrderStatus_eqb (Order.status o) PENDING) (orders s) |}.

(** ** Requests

    A protected route resolves the bearer credential first; the body of
    [create_review] is validated after that and before the handler runs. *)

Definition route_create_product (s : db) (now : Z) (credentials : token)
    (uuid : string) (now' : Z) (product : ProductCreate.t) : result Product.t * db :=
  Depends_get_current_user s now credentials (create_product s uuid now' product).

Definition route_create_order (s : db) (now : Z) (credentials : token)
    (uuid : string) (now' now'' : Z) (order : OrderCreate.t) : result Order.t * db :=
  Depends_get_current_user s now credentials (create_order s uuid now' now'' order).

Definition route_update_order_status (s : db) (now : Z) (credentials : token)
    (now' : Z) (order_id : string) (status : OrderStatus) : result string * db :=
  Depends_get_current_user s now credentials (update_order_status s now' order_id status).

Definition route_create_review (s : db) (now : Z) (credentials : token)
    (uuid : string) (now' : Z) (body : ReviewCreate.t) : result Review.t * db :=
  Depends_get_current_user s now credentials
    (fun current_user =>
       match ReviewCreate_validate body with
       | Raise e => (Raise e, s)
       | Ok review => create_review s uuid now' review current_user
       end).

(** One step of the service: the startup hook or a request that may write. *)
Inductive step : db -> db -> Prop :=
| step_startup s uuid4 now :
    step s (init_sample_data s uuid4 now)
| step_register s uuid now now' user :
    step s (snd (register s uuid now now' user))
| step_login s now credentials :
    step s (snd (login s now credentials))
| step_create_product s now credentials uuid now' product :
    step s (snd (route_create_product s now credentials uuid now' product))
| step_create_order s now credentials uuid now' now'' order :
    step s (snd (route_create_order s now credentials uuid now' now'' order))
| step_update_order_status s now credentials now' order_id status :
    step s (snd (route_update_order_status s now credentials now' order_id status))
| step_create_review s now credentials uuid now' body :
    step s (snd (route_create_review s now credentials uuid now' body)).

(** The states of a deployment: the startup hook runs on the empty database
    before the first request. *)
Inductive reachable : db -> Prop :=
| reachable_startup uuid4 now :
    reachable (init_sample_data empty_db uuid4 now)
| reachable_step s s' :
    reachable s -> step s s' -> reachable s'.



(** ** Notions used in the statements *)

(** Substring search that ignores case, in the words of the specification:
    [q] occurs in [s] when both are read in lower case. *)
Fixpoint lowercase (s : string) : string :=
  match s with
  | EmptyString => EmptyString
  | String c s' => String (lower c) (lowercase s')
  end.


Fixpoint starts_with (q s : string) : bool :=
  match q, s with
  | EmptyString, _ => true
  | String _ _, EmptyString => false
  | String a q', String b s' => (Ascii.eqb a b && starts_with q' s')%bool
  end.

Fixpoint occurs_in (q s : string) : bool :=
  (starts_with q s ||
   match s with
   | EmptyString => false
   | String _ s' => occurs_in q s'
   end)%bool.

Definition contains_cib (q s : string) : bool :=
  occurs_in (lowercase q) (lowercase s).


(** A query made of ordinary printable characters only. *)
Definition literal (q : string) : bool :=
  string_forallb (fun c => (printable c && negb (metacharacter c))%bool) q.

(** A catalog whose names and descriptions are printable ASCII text. *)
Definition text_catalog (s : db) : bool :=
  forallb
    (fun p => (string_forallb printable (Product.name p) &&
               string_forallb printable (Product.description p))%bool)
    (products s).


(** The sum of the specification: the amounts added from left to right,
    starting from 0. *)
Definition left_to_right_sum (xs : list float) : float :=
  fold_left PrimFloat.add xs 0%float.

(** What the addition [a + b] of two floats loses to rounding, as the
    compensated summation computes it from the operands and their sum. *)
Definition rounding_error (a b : float) : float :=
  if (abs b <=? abs a)%float then ((a - (a + b)) + b)%float
  else ((b - (a + b)) + a)%float.

(** The rounding errors of the additions that [left_to_right_sum] makes after
    the first, added up in the same order. *)
Fixpoint accumulated_error (sum error : float) (xs : list float) : float :=
  match xs with
  | [] => error
  | x :: rest => accumulated_error (sum + x)%float (error + rounding_error sum x)%float rest
  end.

Definition rounding_errors (xs : list float) : float :=
  match xs with
  | [] => 0%float
  | x :: rest => accumulated_error (0 + x)%float 0%float rest
  end.

(** [total] is the total of [items]: the left-to-right sum of each item's
    price times its quantity and, under the compensated summation, that sum
    plus the rounding errors of its additions when these add up to a finite
    number other than zero. *)
Definition order_total (compensated : bool) (items : list OrderItem.t) (total : float) : Prop :=
  exists totals,
    Forall2
      (fun item x =>
         exists q, float_of_int (OrderItem.quantity item) = Some q /\
                   x = PrimFloat.mul (OrderItem.price item) q)
      items totals /\
    total =
      if (compensated && negb (is_zero (rounding_errors totals))
          && is_finite (rounding_errors totals))%bool
      then (left_to_right_sum totals + rounding_errors totals)%float
      else left_to_right_sum totals.

(** What a status update leaves alone: every field of an order but [status]
    and [updated_at]. *)
Definition same_order_but_status (o o' : Order.t) : Prop :=
  Order.id o' = Order.id o /\
  Order.user_id o' = Order.user_id o /\
  Order.items o' = Order.items o /\
  Order.total_amount o' = Order.total_amount o /\
  Order.payment_method o' = Order.payment_method o /\
  Order.delivery_address o' = Order.delivery_address o /\
  Order.special_instructions o' = Order.special_instructions o /\
  Order.created_at o' = Order.created_at o.

(** No two accounts share an email. *)
Definition unique_emails (s : db) : Prop :=
  NoDup (map UserDocument.email (users s)).

(** The number of accounts with a given email. *)
Definition accounts_with_email (s : db) (email : string) : Z :=
  count_documents (fun d => String.eqb (UserDocument.email d) email) (users s).

(** No two orders share an identifier. *)
Definition unique_order_ids (s : db) : Prop :=
  NoDup (map Order.id (orders s)).

(** ** Stand-ins for the parameters, used to run the model on examples *)

Definition example_sha256 (data : string) : string := "sha256:" ++ data.

Definition example_HS256 (key : string) (payload : Payload.t) : string :=
  key ++ ":" ++
  match Payload.user_id payload with Some u => u | None => EmptyString end.

Definition example_uuid4 (k : nat) : string :=
  String (ascii_of_nat (97 + k)) "-0000".

Definition example_now (k : nat) : Z := seconds 1700000000 + Z.of_nat k.

(** * Properties *)

Local Open Scope list_scope.

(** ** Lists and the store *)

Lemma find_one_some {A} (query : A -> bool) (collection : list A) (d : A) :
  find_one query collection = Some d -> In d collection /\ query d = true.
Proof. unfold find_one. apply find_some. Qed.

Lemma find_one_none {A} (query : A -> bool) (collection : list A) :
  find_one query collection = None -> forall d, In d collection -> query d = false.
Proof. unfold find_one. apply find_none. Qed.

Lemma find_one_split {A} (query : A -> bool) (collection : list A) (d : A) :
  find_one query collection = Some d ->
  exists before after,
    collection = before ++ d :: after /\
    query d = true /\
    forall x, In x before -> query x = false.
Proof.
  unfold find_one.
  induction collection as [|x rest IH]; simpl; [discriminate|].
  destruct (query x) eqn:Hx.
  - intros [= ->]. exists [], rest. repeat split; auto. intros y [].
  - intros H. destruct (IH H) as (before & after & -> & Hd & Hb).
    exists (x :: before), after. repeat split; auto.
    intros y [<-|Hy]; auto.
Qed.

Lemma find_one_app_new {A} (query : A -> bool) (bson : A -> A) (collection : list A) (d : A) :
  (forall x, In x collection -> query x = false) ->
  query (bson d) = true ->
  find_one query (insert_one bson d collection) = Some (bson d).
Proof.
  unfold find_one, insert_one.
  induction collection as [|x rest IH]; simpl; intros Hnone Hd.
  - now rewrite Hd.
  - rewrite (Hnone x) by now left. apply IH; auto.
Qed.

Lemma find_one_app_last {A} (query : A -> bool) (collection : list A) (d : A) :
  (forall x, In x collection -> query x = false) ->
  query d = true ->
  find_one query (collection ++ [d]) = Some d.
Proof. exact (find_one_app_new query (fun x => x) collection d). Qed.

Lemma update_one_split {A} (query : A -> bool) (set : A -> A)
    (before after : list A) (d : A) :
  (forall x, In x before -> query x = false) ->
  query d = true ->
  update_one query set (before ++ d :: after) = (before ++ set d :: after, 1).
Proof.
  induction before as [|x before IH]; simpl; intros Hb Hd.
  - now rewrite Hd.
  - rewrite (Hb x) by now left.
    rewrite IH; auto.
Qed.

Lemma update_one_unmatched {A} (query : A -> bool) (set : A -> A) (collection : list A) :
  (forall x, In x collection -> query x = false) ->
  update_one query set collection = (collection, 0).
Proof.
  induction collection as [|x rest IH]; simpl; intros Hn; [reflexivity|].
  rewrite (Hn x) by now left.
  rewrite IH; auto.
Qed.

(** ** Access control *)

Lemma UserRole_eqb_eq (a b : UserRole) : UserRole_eqb a b = true <-> a = b.
Proof. destruct a, b; simpl; split; congruence. Qed.

Lemma Depends_resolved {A} (s : db) (now : Z) (credentials : token)
    (endpoint : User.t -> result A * db) (current_user : User.t) :
  get_current_user s now credentials = Ok current_user ->
  Depends_get_current_user s now credentials endpoint = endpoint current_user.
Proof. unfold Depends_get_current_user. now intros ->. Qed.


(** C4: an account whose role is customer is refused by the three admin-only
    operations (create product, update order status, dashboard stats) with
    HTTP 403 "Admin access required", and the database is the same
    afterwards; the same holds of the routes, for a credential that resolves
    to such an account. *)
Theorem C4_customer_is_forbidden (s : db) (current_user : User.t) :
  User.role current_user = CUSTOMER ->
  (forall uuid now product,
      create_product s uuid now product current_user
      = (Raise (HTTPException 403 "Admin access required"), s)) /\
  (forall now order_id status,
      update_order_status s now order_id status current_user
      = (Raise (HTTPException 403 "Admin access required"), s)) /\
  get_dashboard_stats s current_user
  = Raise (HTTPException 403 "Admin access required") /\
  (forall now credentials uuid now' product,
      get_current_user s now credentials = Ok current_user ->
      route_create_product s now credentials uuid now' product
      = (Raise (HTTPException 403 "Admin access required"), s)) /\
  (forall now credentials now' order_id status,
      get_current_user s now credentials = Ok current_user ->
      route_update_order_status s now credentials now' order_id status
      = (Raise (HTTPException 403 "Admin access required"), s)).
Proof.
  intros Hrole.
  assert (Hp : forall uuid now product,
             create_product s uuid now product current_user
             = (Raise (HTTPException 403 "Admin access required"), s)).
  { intros. unfold create_product. now rewrite Hrole. }
  assert (Hu : forall now order_id status,
             update_order_status s now order_id status current_user
             = (Raise (HTTPException 403 "Admin access required"), s)).
  { intros. unfold update_order_status. now rewrite Hrole. }
  repeat split; auto.
  - unfold get_dashboard_stats. now rewrite Hrole.
  - intros. unfold route_create_product.
    erewrite Depends_resolved by eassumption. apply Hp.
  - intros. unfold route_update_order_status.
    erewrite Depends_resolved by eassumption. apply Hu.
Qed.

(** ** Products *)

Lemma find_all_sound {A} (query : A -> option bool) (collection found : list A) :
  find_all query collection = Some found ->
  forall d, In d found -> In d collection /\ query d = Some true.
Proof.
  revert found.
  induction collection as [|x rest IH]; simpl; intros found H d Hd.
  - injection H as <-. destruct Hd.
  - destruct (query x) as [[|]|] eqn:Hx; try discriminate;
      destruct (find_all query rest) as [ds|] eqn:Hr; try discriminate;
      injection H as <-.
    + destruct Hd as [<-|Hd]; [split; auto; now left|].
      destruct (IH ds eq_refl d Hd); split; auto; now right.
    + destruct (IH ds eq_refl d Hd); split; auto; now right.
Qed.

Lemma search_query_available (re : list atom) (p : Product.t) :
  search_query re p = Some true -> Product.available p = true.
Proof. unfold search_query. destruct (Product.available p); congruence. Qed.

(** C10: a product whose availability flag is false is still returned, whole,
    by [get_product] (the lookup by id does not look at the flag), while the
    listing and the search return available products only, so they never
    return it. *)
Theorem C10_unavailable_products (s : db) (product_id : string) (p : Product.t) :
  find_one (fun x => String.eqb (Product.id x) product_id) (products s) = Some p ->
  Product.available p = false ->
  get_product s product_id = Ok p /\
  (forall category p',
      In p' (get_products s category) ->
      In p' (products s) /\ Product.available p' = true) /\
  (forall category, ~ In p (get_products s category)) /\
  (forall q found,
      search_products s q = Some found ->
      (forall p', In p' found -> In p' (products s) /\ Product.available p' = true) /\
      ~ In p found).
Proof.
  intros Hfind Hflag.
  assert (Hlist : forall category p',
             In p' (get_products s category) ->
             In p' (products s) /\ Product.available p' = true).
  { intros category p' Hin. unfold get_products in Hin.
    apply filter_In in Hin as [Hin Hq].
    apply andb_true_iff in Hq as [Hq _]. auto. }
  assert (Hsearch : forall q found,
             search_products s q = Some found ->
             forall p', In p' found -> In p' (products s) /\ Product.available p' = true).
  { intros q found Hs p' Hin. unfold search_products in Hs.
    destruct (regex_compile q) as [re|]; [|discriminate].
    destruct (find_all_sound _ _ _ Hs p' Hin) as [Hp Hq].
    split; auto. eapply search_query_available; eauto. }
  repeat split.
  - unfold get_product. now rewrite Hfind.
  - apply (Hlist category p' H).
  - apply (Hlist category p' H).
  - intros category Hin. apply Hlist in Hin as [_ Hav]. congruence.
  - apply (Hsearch q found H p' H0).
  - apply (Hsearch q found H p' H0).
  - intros Hin. apply (Hsearch q found H) in Hin as [_ Hav]. congruence.
Qed.

(** ** Orders *)

Lemma set_status_frame (status : OrderStatus) (updated_at : datetime) (o : Order.t) :
  same_order_but_status o (set_status status updated_at o).
Proof. unfold same_order_but_status; simpl; repeat split. Qed.



Lemma create_order_ok (s : db) (uuid : string) (now now' : Z)
    (order : OrderCreate.t) (current_user : User.t) (o : Order.t) (s' : db) :
  create_order s uuid now now' order current_user = (Ok o, s') ->
  exists totals,
    line_totals (OrderCreate.items order) = Some totals /\
    o = {| Order.id := uuid;
           Order.user_id := User.id current_user;
           Order.items := OrderCreate.items order;
           Order.total_amount := py_sum compensated_sum totals;
           Order.status := PENDING;
           Order.payment_method := "card";
           Order.delivery_address := OrderCreate.delivery_address order;
           Order.special_instructions := OrderCreate.special_instructions order;
           Order.created_at := datetime_now now;
           Order.updated_at := datetime_now now' |} /\
    s' = {| users := users s;
            products := products s;
            orders := orders s ++ [bson_order o];
            reviews := reviews s |}.
Proof.
  unfold create_order.
  destruct (line_totals (OrderCreate.items order)) as [totals|]; [|discriminate].
  destruct (forallb _ _); [|discriminate].
  intros [= <- <-]. exists totals. repeat split.
Qed.

(** C9: a newly created order has status [PENDING], in the answer and in the
    store; an administrator's update of an existing order succeeds whatever
    the current and the requested status are, and it rewrites the order in
    place with the requested status and the new [updated_at] (in its stored
    form), every other field of the order, every other order and the other
    collections being left as they were. *)
Theorem C9_status_updates :
  (forall s uuid now now' order current_user o s',
      create_order s uuid now now' order current_user = (Ok o, s') ->
      Order.status o = PENDING /\
      In (bson_order o) (orders s') /\
      Order.status (bson_order o) = PENDING) /\
  (forall s now order_id status admin o,
      User.role admin = ADMIN ->
      find_one (fun x => String.eqb (Order.id x) order_id) (orders s) = Some o ->
      exists before after o',
        orders s = before ++ o :: after /\
        update_order_status s now order_id status admin
        = (Ok "Order status updated",
           {| users := users s;
              products := products s;
              orders := before ++ o' :: after;
              reviews := reviews s |}) /\
        Order.status o' = status /\
        Order.updated_at o' = bson_datetime (datetime_now now) /\
        same_order_but_status o o').
Proof.
  split.
  - intros s uuid now now' order current_user o s' H.
    destruct (create_order_ok _ _ _ _ _ _ _ _ H) as (totals & _ & -> & ->).
    split; [reflexivity|]. split; [|reflexivity].
    simpl. apply in_or_app. right. now left.
  - intros s now order_id status admin o Hrole Hfind.
    destruct (find_one_split _ _ _ Hfind) as (before & after & Horders & Hq & Hbefore).
    exists before, after, (set_status status (datetime_now now) o).
    split; [exact Horders|].
    split; [|split; [reflexivity|split; [reflexivity|apply set_status_frame]]].
    unfold update_order_status. rewrite Hrole. simpl negb. cbv iota.
    rewrite Horders.
    rewrite (update_one_split _ _ before after o Hbefore Hq).
    reflexivity.
Qed.

Lemma find_one_unique_id (s : db) (o : Order.t) :
  unique_order_ids s ->
  In o (orders s) ->
  find_one (fun x => String.eqb (Order.id x) (Order.id o)) (orders s) = Some o.
Proof.
  unfold unique_order_ids, find_one.
  induction (orders s) as [|x rest IH]; simpl; intros Hnd Hin; [destruct Hin|].
  inversion Hnd as [|? ? Hx Hrest]; subst.
  destruct Hin as [->|Hin].
  - now rewrite String.eqb_refl.
  - destruct (String.eqb (Order.id x) (Order.id o)) eqn:E.
    + apply String.eqb_eq in E. exfalso. apply Hx. rewrite E.
      now apply in_map.
    + auto.
Qed.

Lemma get_order_found (s : db) (order_id : string) (o : Order.t) (current_user : User.t) :
  find_one (fun x => String.eqb (Order.id x) order_id) (orders s) = Some o ->
  get_order s order_id current_user
  = if (UserRole_eqb (User.role current_user) CUSTOMER &&
        negb (String.eqb (Order.user_id o) (User.id current_user)))%bool
    then Raise (HTTPException 403 "Access denied")
    else Ok o.
Proof. unfold get_order. now intros ->. Qed.

Lemma create_order_then_find (s : db) (uuid : string) (now now' : Z)
    (order : OrderCreate.t) (current_user : User.t) (o : Order.t) (s' : db) :
  create_order s uuid now now' order current_user = (Ok o, s') ->
  (forall x, In x (orders s) -> Order.id x <> uuid) ->
  find_one (fun x => String.eqb (Order.id x) (Order.id o)) (orders s') = Some (bson_order o).
Proof.
  intros H Hfresh.
  destruct (create_order_ok _ _ _ _ _ _ _ _ H) as (totals & _ & Ho & ->).
  simpl. apply (find_one_app_new _ bson_order).
  - intros x Hx. apply String.eqb_neq. rewrite Ho. simpl. now apply Hfresh.
  - apply String.eqb_refl.
Qed.

(** C5, amended: for an order of the store (whose identifiers are distinct),
    a customer whose id is not the order's [user_id] is refused with HTTP 403
    "Access denied" when fetching it by id, and the account that owns it gets
    the stored record.  Right after [create_order] (with a fresh identifier)
    that record is the one the creation returned in its stored form: every
    field is the same but [created_at] and [updated_at], which come back
    naive and cut down to whole milliseconds. *)
Theorem C5_order_access :
  (forall s o other,
      unique_order_ids s ->
      In o (orders s) ->
      User.role other = CUSTOMER ->
      User.id other <> Order.user_id o ->
      get_order s (Order.id o) other = Raise (HTTPException 403 "Access denied")) /\
  (forall s o owner,
      unique_order_ids s ->
      In o (orders s) ->
      User.id owner = Order.user_id o ->
      get_order s (Order.id o) owner = Ok o) /\
  (forall s uuid now now' order owner created s',
      create_order s uuid now now' order owner = (Ok created, s') ->
      (forall x, In x (orders s) -> Order.id x <> uuid) ->
      Order.user_id created = User.id owner /\
      get_order s' (Order.id created) owner
      = Ok {| Order.id := Order.id created;
              Order.user_id := Order.user_id created;
              Order.items := Order.items created;
              Order.total_amount := Order.total_amount created;
              Order.status := Order.status created;
              Order.payment_method := Order.payment_method created;
              Order.delivery_address := Order.delivery_address created;
              Order.special_instructions := Order.special_instructions created;
              Order.created_at := {| instant := now / 1000 * 1000; aware := false |};
              Order.updated_at := {| instant := now' / 1000 * 1000; aware := false |} |} /\
      Order.created_at created = {| instant := now; aware := true |} /\
      Order.updated_at created = {| instant := now'; aware := true |}).
Proof.
  split; [|split].
  - intros s o other Hu Hin Hrole Hid.
    rewrite (get_order_found s _ o) by now apply find_one_unique_id.
    rewrite Hrole. simpl.
    assert (E : String.eqb (Order.user_id o) (User.id other) = false).
    { apply String.eqb_neq. congruence. }
    now rewrite E.
  - intros s o owner Hu Hin Hid.
    rewrite (get_order_found s _ o) by now apply find_one_unique_id.
    rewrite Hid, String.eqb_refl. simpl. now rewrite andb_false_r.
  - intros s uuid now now' order owner created s' H Hfresh.
    pose proof (create_order_then_find _ _ _ _ _ _ _ _ H Hfresh) as Hfind.
    destruct (create_order_ok _ _ _ _ _ _ _ _ H) as (totals & _ & Ho & _).
    assert (Hid : Order.user_id created = User.id owner) by now rewrite Ho.
    split; [exact Hid|].
    split; [|now rewrite Ho].
    rewrite (get_order_found s' _ (bson_order created) owner Hfind).
    simpl. rewrite Hid, String.eqb_refl, andb_false_r.
    rewrite Ho. reflexivity.
Qed.

Lemma line_totals_spec (items : list OrderItem.t) (totals : list float) :
  line_totals items = Some totals ->
  Forall2
    (fun item x =>
       exists q, float_of_int (OrderItem.quantity item) = Some q /\
                 x = PrimFloat.mul (OrderItem.price item) q)
    items totals.
Proof.
  revert totals.
  induction items as [|item rest IH]; simpl; intros totals H.
  - injection H as <-. constructor.
  - destruct (line_total item) as [x|] eqn:Hx; [|discriminate].
    destruct (line_totals rest) as [xs|]; [|discriminate].
    injection H as <-.
    constructor; [|now apply IH].
    unfold line_total in Hx.
    destruct (float_of_int (OrderItem.quantity item)) as [q|]; [|discriminate].
    injection Hx as <-. now exists q.
Qed.




Lemma sum_loop_fold (f_result : float) (xs : list float) :
  sum_loop f_result xs = fold_left PrimFloat.add xs f_result.
Proof.
  revert f_result. induction xs as [|x rest IH]; intros f_result; simpl; auto.
Qed.

Lemma cs_add_error (hi lo x : float) :
  cs_add (hi, lo) x = ((hi + x)%float, (lo + rounding_error hi x)%float).
Proof. unfold cs_add, rounding_error. now destruct (abs x <=? abs hi)%float. Qed.

Lemma cs_loop_fold (hi lo : float) (xs : list float) :
  cs_loop (hi, lo) xs
  = cs_to_double (fold_left PrimFloat.add xs hi, accumulated_error hi lo xs).
Proof.
  revert hi lo. induction xs as [|x rest IH]; intros hi lo; [reflexivity|].
  cbn [cs_loop]. rewrite cs_add_error, IH. reflexivity.
Qed.

(** The [sum] of the interpreter against the sum of the specification. *)
Lemma py_sum_spec (compensated : bool) (xs : list float) :
  py_sum compensated xs
  = if (compensated && negb (is_zero (rounding_errors xs))
        && is_finite (rounding_errors xs))%bool
    then (left_to_right_sum xs + rounding_errors xs)%float
    else left_to_right_sum xs.
Proof.
  destruct xs as [|x rest]; [now destruct compensated|].
  unfold py_sum, left_to_right_sum, rounding_errors.
  destruct compensated; simpl.
  - now rewrite cs_loop_fold.
  - apply sum_loop_fold.
Qed.



(** ** Reviews *)

Lemma rating_in_range_iff (rating : Z) :
  rating_in_range rating = true <-> 1 <= rating <= 5.
Proof. unfold rating_in_range. rewrite andb_true_iff, !Z.leb_le. tauto. Qed.

(** C7: for a request whose credential resolves to an account, a rating
    outside [1, 5] (0 and 6 among them) is refused by the validation of the
    body, before any lookup and with the database left as it was; a rating
    inside [1, 5] (1 and 5 among them) on a product of the catalog creates
    the review and appends it; on a product id that is not in the catalog the
    request fails with HTTP 404 and inserts nothing.  A review is thus
    created only for a rating inside [1, 5] and an existing product. *)
Theorem C7_review_creation (s : db) (now : Z) (credentials : token)
    (current_user : User.t) (uuid : string) (now' : Z) (body : ReviewCreate.t) :
  get_current_user s now credentials = Ok current_user ->
  let product :=
    find_one (fun p => String.eqb (Product.id p) (ReviewCreate.product_id body)) (products s) in
  let answer := route_create_review s now credentials uuid now' body in
  (rating_in_range 0 = false /\ rating_in_range 6 = false /\
   rating_in_range 1 = true /\ rating_in_range 5 = true) /\
  (ReviewCreate.rating body < 1 \/ 5 < ReviewCreate.rating body ->
   answer = (Raise RequestValidationError, s)) /\
  (1 <= ReviewCreate.rating body <= 5 -> product = None ->
   answer = (Raise (HTTPException 404 "Product not found"), s)) /\
  (1 <= ReviewCreate.rating body <= 5 -> product <> None ->
   exists review,
     answer = (Ok review,
               {| users := users s;
                  products := products s;
                  orders := orders s;
                  reviews := reviews s ++ [bson_review review] |}) /\
     Review.product_id review = ReviewCreate.product_id body /\
     Review.rating review = ReviewCreate.rating body /\
     Review.comment review = ReviewCreate.comment body /\
     Review.user_id review = User.id current_user) /\
  (forall review s',
      answer = (Ok review, s') ->
      product <> None /\ 1 <= ReviewCreate.rating body <= 5).
Proof.
  intros Hauth product answer.
  assert (Hanswer : answer =
            match ReviewCreate_validate body with
            | Raise e => (Raise e, s)
            | Ok review => create_review s uuid now' review current_user
            end).
  { unfold answer, route_create_review. now rewrite (Depends_resolved _ _ _ _ _ Hauth). }
  clearbody answer. subst answer product.
  unfold ReviewCreate_validate, create_review.
  destruct (rating_in_range (ReviewCreate.rating body)) eqn:Hr;
    cbv beta iota; rewrite ?Hr;
    destruct (find_one _ (products s)) as [p|] eqn:Hp;
    (split; [repeat split|]);
    try (apply rating_in_range_iff in Hr as Hrange);
    try (assert (Hout : ~ 1 <= ReviewCreate.rating body <= 5)
          by (rewrite <- rating_in_range_iff; congruence)).
  - split; [intros; exfalso; lia|].
    split; [discriminate|].
    split.
    + intros _ _. eexists. split; [reflexivity|]. simpl. auto.
    + intros review s' _. split; [discriminate|exact Hrange].
  - split; [intros; exfalso; lia|].
    split; [reflexivity|].
    split; [congruence|].
    discriminate.
  - split; [reflexivity|].
    split; [intros; exfalso; lia|].
    split; [intros; exfalso; lia|].
    discriminate.
  - split; [reflexivity|].
    split; [intros; exfalso; lia|].
    split; [intros; exfalso; lia|].
    discriminate.
Qed.

(** ** Tokens *)

Lemma truncated_seconds (x : Z) :
  0 <= x ->
  x - 1000000 < seconds (Z.quot x 1000000) <= x.
Proof.
  intros Hx. unfold seconds.
  rewrite Z.quot_div_nonneg by lia.
  pose proof (Z.div_mod x 1000000 ltac:(lia)).
  pose proof (Z.mod_pos_bound x 1000000 ltac:(lia)).
  lia.
Qed.

Lemma jwt_decode_create_token (user_id email role : string) (issued now : Z) :
  jwt_decode (create_token user_id email role issued) SECRET_KEY now
  = if seconds (Z.quot (issued + seconds 86400) 1000000) <=? now
    then ExpiredSignatureError
    else Decoded {| Payload.user_id := Some user_id;
                    Payload.email := Some email;
                    Payload.role := Some role;
                    Payload.exp := Some (issued + seconds 86400) |}.
Proof.
  unfold create_token, jwt_encode, jwt_decode.
  rewrite String.eqb_refl. reflexivity.
Qed.

(** C2: a token issued at [issued] for [user_id], [email] and [role] decodes
    to exactly these three claims (with its expiry) when it is verified at
    once, and at any instant up to 24 hours minus one second later;
    [get_current_user] then answers the account stored under [user_id].
    Verified at an instant later than [issued] + 24 hours, the token is
    refused with [ExpiredSignatureError], which [get_current_user] turns into
    HTTP 401 "Token expired". *)
Theorem C2_token_verification (user_id email role : string) (issued : Z) :
  0 <= issued ->
  let token := create_token user_id email role issued in
  (forall now,
      issued <= now <= issued + seconds 86399 ->
      jwt_decode token SECRET_KEY now
      = Decoded {| Payload.user_id := Some user_id;
                   Payload.email := Some email;
                   Payload.role := Some role;
                   Payload.exp := Some (issued + seconds 86400) |}) /\
  (forall now s user,
      issued <= now <= issued + seconds 86399 ->
      find_one (fun d => String.eqb (UserDocument.id d) user_id) (users s) = Some user ->
      get_current_user s now token = Ok (User_of_document user)) /\
  (forall now,
      issued + seconds 86400 < now ->
      jwt_decode token SECRET_KEY now = ExpiredSignatureError) /\
  (forall now s,
      issued + seconds 86400 < now ->
      get_current_user s now token = Raise (HTTPException 401 "Token expired")).
Proof.
  intros Hissued token. subst token.
  assert (Htrunc : issued + seconds 86399
                   < seconds (Z.quot (issued + seconds 86400) 1000000)
                   <= issued + seconds 86400).
  { pose proof (truncated_seconds (issued + seconds 86400)) as H.
    generalize dependent (seconds (Z.quot (issued + seconds 86400) 1000000)).
    unfold seconds. intros. lia. }
  assert (Hlive : forall now, issued <= now <= issued + seconds 86399 ->
            (seconds (Z.quot (issued + seconds 86400) 1000000) <=? now) = false).
  { intros now Hnow. apply Z.leb_gt. lia. }
  assert (Hdead : forall now, issued + seconds 86400 < now ->
            (seconds (Z.quot (issued + seconds 86400) 1000000) <=? now) = true).
  { intros now Hnow. apply Z.leb_le. lia. }
  repeat split.
  - intros now Hnow. now rewrite jwt_decode_create_token, Hlive.
  - intros now s user Hnow Hfind. unfold get_current_user.
    rewrite jwt_decode_create_token, Hlive by exact Hnow.
    simpl. now rewrite Hfind.
  - intros now Hnow. now rewrite jwt_decode_create_token, Hdead.
  - intros now s Hnow. unfold get_current_user.
    now rewrite jwt_decode_create_token, Hdead.
Qed.

(** ** Accounts *)

Lemma register_ok (s : db) (uuid : string) (now now' : Z)
    (user : UserCreate.t) (out : token * User.t) (s' : db) :
  register s uuid now now' user = (Ok out, s') ->
  (forall d, In d (users s) -> UserDocument.email d <> UserCreate.email user) /\
  exists document,
    users s' = users s ++ [document] /\
    products s' = products s /\ orders s' = orders s /\ reviews s' = reviews s /\
    UserDocument.id document = uuid /\
    UserDocument.email document = UserCreate.email user /\
    UserDocument.role document = CUSTOMER /\
    UserDocument.password document = None.
Proof.
  unfold register.
  destruct (find_one _ (users s)) as [existing|] eqn:Hfind; [discriminate|].
  intros [= <- <-]. split.
  - intros d Hd. apply String.eqb_neq.
    apply (find_one_none _ _ Hfind d Hd).
  - eexists. split; [reflexivity|]. simpl. repeat split.
Qed.

(** C1, as the code has it: after a successful registration the document
    inserted into [db.users] is the dictionary of a [User], which has no
    ["password"] key, so the digest of the password is not stored; a login
    with the same email and password then finds that document and raises
    [KeyError] on ["password"] instead of answering a token. *)
Theorem C1_registered_account_cannot_log_in (s : db) (uuid : string)
    (now now' : Z) (user : UserCreate.t) (out : token * User.t) (s' : db) :
  register s uuid now now' user = (Ok out, s') ->
  (exists document,
      users s' = users s ++ [document] /\
      UserDocument.email document = UserCreate.email user /\
      UserDocument.password document = None) /\
  (forall t,
      login s' t {| UserLogin.email := UserCreate.email user;
                    UserLogin.password := UserCreate.password user |}
      = (Raise (KeyError "password"), s')).
Proof.
  intros H.
  destruct (register_ok _ _ _ _ _ _ _ H)
    as (Hnew & document & Husers & _ & _ & _ & _ & Hemail & _ & Hpassword).
  split.
  - exists document. auto.
  - intros t. unfold login. simpl UserLogin.email.
    rewrite Husers.
    rewrite find_one_app_last.
    + now rewrite Hpassword.
    + intros d Hd. apply String.eqb_neq. now apply Hnew.
    + rewrite Hemail. apply String.eqb_refl.
Qed.

Lemma count_documents_pos {A} (collection : list A) :
  collection <> [] ->
  (0 <? count_documents (fun _ => true) collection) = true.
Proof.
  destruct collection as [|x rest]; [congruence|].
  intros _. unfold count_documents. simpl. apply Z.ltb_lt. lia.
Qed.

Lemma step_users (s s' : db) :
  step s s' ->
  products s <> [] ->
  products s' <> [] /\
  (users s' = users s \/
   exists document,
     users s' = users s ++ [document] /\
     forall d, In d (users s) -> UserDocument.email d <> UserDocument.email document).
Proof.
  intros Hstep Hproducts.
  destruct Hstep.
  - unfold init_sample_data. rewrite count_documents_pos by assumption. auto.
  - destruct (register s uuid now now' user) as [[out|e] s1] eqn:Hr.
    + destruct (register_ok _ _ _ _ _ _ _ Hr)
        as (Hnew & document & Husers & Hp & _ & _ & _ & Hemail & _).
      simpl. split; [congruence|].
      right. exists document. split; [exact Husers|].
      intros d Hd. rewrite Hemail. now apply Hnew.
    + unfold register in Hr.
      destruct (find_one _ (users s)); [|discriminate].
      injection Hr as _ <-. auto.
  - unfold login.
    destruct (find_one _ _) as [user|]; [|auto].
    destruct (UserDocument.password user); [|auto].
    destruct (negb _); auto.
  - unfold route_create_product, Depends_get_current_user.
    destruct (get_current_user _ _ _); [|auto].
    unfold create_product. destruct (negb _); [auto|].
    destruct (bson_dict _ _); [auto|].
    simpl. split; [|auto]. unfold insert_one.
    destruct (products s); simpl; congruence.
  - unfold route_create_order, Depends_get_current_user.
    destruct (get_current_user _ _ _); [|auto].
    unfold create_order.
    destruct (line_totals _); [|auto].
    destruct (forallb _ _); auto.
  - unfold route_update_order_status, Depends_get_current_user.
    destruct (get_current_user _ _ _); [|auto].
    unfold update_order_status.
    destruct (negb _); [auto|].
    destruct (update_one _ _ _) as [orders' m].
    destruct (m =? 0); auto.
  - unfold route_create_review, Depends_get_current_user.
    destruct (get_current_user _ _ _); [|auto].
    destruct (ReviewCreate_validate _); [|auto].
    unfold create_review.
    destruct (find_one _ _); [|auto].
    destruct (rating_in_range _); auto.
Qed.

(** In every state of a deployment the catalog is not empty and no two
    accounts share an email. *)
Lemma reachable_unique_emails (s : db) :
  reachable s -> products s <> [] /\ unique_emails s.
Proof.
  unfold unique_emails.
  induction 1 as [uuid4 now|s s' _ [IHp IHu] Hstep].
  - unfold init_sample_data. simpl. split; [discriminate|].
    repeat constructor. intros [].
  - destruct (step_users _ _ Hstep IHp) as (Hp & [->|(document & -> & Hnew)]).
    + auto.
    + split; [exact Hp|].
      rewrite map_app. simpl.
      apply NoDup_app; [exact IHu|repeat constructor; intros []|].
      intros e He [<-|[]].
      apply in_map_iff in He as (d & Hd & Hin).
      now apply (Hnew d Hin).
Qed.

Lemma filter_none {A} (query : A -> bool) (collection : list A) :
  (forall x, In x collection -> query x = false) ->
  List.filter query collection = [].
Proof.
  induction collection as [|x rest IH]; simpl; intros H; [reflexivity|].
  rewrite (H x) by now left. apply IH. auto.
Qed.

Lemma count_unique {A} (f : A -> string) (collection : list A) (d : A) :
  NoDup (map f collection) ->
  In d collection ->
  count_documents (fun x => String.eqb (f x) (f d)) collection = 1.
Proof.
  unfold count_documents.
  induction collection as [|x rest IH]; simpl; intros Hnd Hin; [destruct Hin|].
  inversion Hnd as [|? ? Hx Hrest]; subst.
  destruct (String.eqb (f x) (f d)) eqn:E.
  - apply String.eqb_eq in E.
    assert (Hnone : List.filter (fun x0 => String.eqb (f x0) (f d)) rest = []).
    { apply filter_none. intros y Hy.
      apply String.eqb_neq. intros E'. apply Hx. rewrite E, <- E'.
      now apply in_map. }
    now rewrite Hnone.
  - destruct Hin as [->|Hin]; [now rewrite String.eqb_refl in E|].
    now apply IH.
Qed.

(** C3: in a state of a deployment that already holds an account with the
    email of a registration request, the request fails with HTTP 400 "Email
    already registered", the database is left as it was (nothing is
    inserted), and it holds exactly one account with that email afterwards. *)
Theorem C3_duplicate_email_is_refused (s : db) (uuid : string)
    (now now' : Z) (user : UserCreate.t) :
  reachable s ->
  (exists d, In d (users s) /\ UserDocument.email d = UserCreate.email user) ->
  register s uuid now now' user
  = (Raise (HTTPException 400 "Email already registered"), s) /\
  accounts_with_email (snd (register s uuid now now' user)) (UserCreate.email user) = 1.
Proof.
  intros Hreach (d & Hin & Hemail).
  assert (Hreg : register s uuid now now' user
                 = (Raise (HTTPException 400 "Email already registered"), s)).
  { unfold register.
    destruct (find_one _ (users s)) as [existing|] eqn:Hfind; [reflexivity|].
    pose proof (find_one_none _ _ Hfind d Hin) as Hd. simpl in Hd.
    rewrite Hemail, String.eqb_refl in Hd. discriminate. }
  split; [exact Hreg|].
  rewrite Hreg. simpl. unfold accounts_with_email. rewrite <- Hemail.
  apply (count_unique UserDocument.email).
  - apply reachable_unique_emails, Hreach.
  - exact Hin.
Qed.

(** ** Search *)




Lemma literal_not_dot (c : ascii) :
  metacharacter c = false -> Ascii.eqb c "." = false.
Proof.
  intros H. destruct (Ascii.eqb c ".") eqn:E; [|reflexivity].
  apply Ascii.eqb_eq in E. subst c. discriminate.
Qed.

(** A query of ordinary characters compiles to the sequence of these
    characters. *)
Lemma regex_compile_literal (q : string) :
  literal q = true ->
  regex_compile q = Some (map Char (list_ascii_of_string q)).
Proof.
  unfold literal, string_forallb.
  induction q as [|c q IH]; simpl; [reflexivity|].
  rewrite !andb_true_iff, negb_true_iff. intros [[Hp Hm] Hq].
  rewrite (IH Hq), (literal_not_dot c Hm), Hm, Hp. reflexivity.
Qed.

Lemma match_here_literal (q s : string) :
  match_here (map Char (list_ascii_of_string q)) s
  = starts_with (lowercase q) (lowercase s).
Proof.
  revert s. induction q as [|a q IH]; intros s; simpl.
  - reflexivity.
  - destruct s as [|b s]; simpl; [reflexivity|]. now rewrite IH.
Qed.

Lemma match_anywhere_literal (q s : string) :
  match_anywhere (map Char (list_ascii_of_string q)) s = contains_cib q s.
Proof.
  unfold contains_cib.
  induction s as [|b s IH]; simpl.
  - now rewrite match_here_literal.
  - now rewrite match_here_literal, IH.
Qed.

Lemma find_all_total {A} (query : A -> option bool) (f : A -> bool) (collection : list A) :
  (forall d, In d collection -> query d = Some (f d)) ->
  find_all query collection = Some (List.filter f collection).
Proof.
  induction collection as [|x rest IH]; simpl; intros H; [reflexivity|].
  rewrite (H x) by now left.
  rewrite IH by auto.
  now destruct (f x).
Qed.


(** * Further properties of the handlers *)

(** ** The shape of a step *)

Lemma find_one_unique {A} (f : A -> string) (collection : list A) (d : A) :
  NoDup (map f collection) ->
  In d collection ->
  find_one (fun x => String.eqb (f x) (f d)) collection = Some d.
Proof.
  unfold find_one.
  induction collection as [|x rest IH]; simpl; intros Hnd Hin; [destruct Hin|].
  inversion Hnd as [|? ? Hx Hrest]; subst.
  destruct Hin as [->|Hin].
  - now rewrite String.eqb_refl.
  - destruct (String.eqb (f x) (f d)) eqn:E; [|auto].
    apply String.eqb_eq in E. exfalso. apply Hx. rewrite E. now apply in_map.
Qed.

Lemma db_eta (s : db) :
  {| users := users s; products := products s; orders := orders s; reviews := reviews s |} = s.
Proof. now destruct s. Qed.

Lemma get_current_user_ok (s : db) (now : Z) (credentials : token) (u : User.t) :
  get_current_user s now credentials = Ok u ->
  exists payload signature user_id document,
    credentials = JWS payload signature /\
    signature = HS256 SECRET_KEY payload /\
    jwt_decode credentials SECRET_KEY now = Decoded payload /\
    Payload.user_id payload = Some user_id /\
    find_one (fun d => String.eqb (UserDocument.id d) user_id) (users s) = Some document /\
    u = User_of_document document.
Proof.
  unfold get_current_user.
  destruct (jwt_decode credentials SECRET_KEY now) as [payload| |] eqn:Hd; try discriminate.
  destruct (Payload.user_id payload) as [user_id|] eqn:Hid; [|discriminate].
  destruct (find_one _ (users s)) as [document|] eqn:Hfind; [|discriminate].
  intros [= <-].
  unfold jwt_decode in Hd.
  destruct credentials as [|payload' signature]; [discriminate|].
  destruct (String.eqb signature (HS256 SECRET_KEY payload')) eqn:Hsig; simpl in Hd;
    [|discriminate].
  apply String.eqb_eq in Hsig.
  assert (payload' = payload).
  { destruct (Payload.exp payload'); [destruct (_ <=? _); [discriminate|]|]; congruence. }
  subst payload'.
  exists payload, signature, user_id, document.
  repeat split; auto.
Qed.

(** What one step can do to the database, once the catalog is seeded: nothing,
    or append one customer account without a password, one available
    product, one pending order of a stored account, one review of a stored
    product by a stored account, or rewrite the status and update time of one
    order. *)
Lemma step_cases (s s' : db) :
  step s s' ->
  products s <> [] ->
  s' = s \/
  (exists document,
      s' = {| users := users s ++ [document]; products := products s;
              orders := orders s; reviews := reviews s |} /\
      UserDocument.role document = CUSTOMER /\
      UserDocument.password document = None /\
      forall d, In d (users s) -> UserDocument.email d <> UserDocument.email document) \/
  (exists product,
      s' = {| users := users s; products := products s ++ [product];
              orders := orders s; reviews := reviews s |} /\
      Product.available product = true) \/
  (exists order,
      s' = {| users := users s; products := products s;
              orders := orders s ++ [order]; reviews := reviews s |} /\
      (exists d, In d (users s) /\ UserDocument.id d = Order.user_id order) /\
      Order.status order = PENDING /\
      order_total compensated_sum (Order.items order) (Order.total_amount order) /\
      forallb (fun item => bson_int64 (OrderItem.quantity item)) (Order.items order) = true) \/
  (exists before o after status now,
      orders s = before ++ o :: after /\
      s' = {| users := users s; products := products s;
              orders := before ++ set_status status now o :: after;
              reviews := reviews s |}) \/
  (exists review,
      s' = {| users := users s; products := products s;
              orders := orders s; reviews := reviews s ++ [review] |} /\
      1 <= Review.rating review <= 5 /\
      (exists p, In p (products s) /\ Product.id p = Review.product_id review) /\
      (exists d, In d (users s) /\ UserDocument.id d = Review.user_id review)).
Proof.
  intros Hstep Hproducts.
  destruct Hstep.
  - left. unfold init_sample_data. now rewrite count_documents_pos.
  - destruct (register s uuid now now' user) as [[out|e] s1] eqn:Hr.
    + right. left.
      destruct (register_ok _ _ _ _ _ _ _ Hr)
        as (Hnew & document & Husers & Hp & Ho & Hrv & _ & Hemail & Hrole & Hpw).
      exists document. simpl. split; [|repeat split; auto].
      * destruct s1; simpl in *. unfold insert_one in Husers. congruence.
      * intros d Hd. rewrite Hemail. now apply Hnew.
    + left. unfold register in Hr.
      destruct (find_one _ (users s)); [|discriminate].
      now injection Hr as _ <-.
  - left. unfold login.
    destruct (find_one _ _) as [user|]; [|reflexivity].
    destruct (UserDocument.password user); [|reflexivity].
    now destruct (negb _).
  - unfold route_create_product, Depends_get_current_user.
    destruct (get_current_user _ _ _); [|now left].
    unfold create_product. destruct (negb _); [now left|].
    destruct (bson_dict _ _); [now left|].
    right. right. left. eexists. split; reflexivity.
  - unfold route_create_order, Depends_get_current_user.
    destruct (get_current_user _ _ _) as [u|] eqn:Hu; [|now left].
    unfold create_order.
    destruct (line_totals _) as [totals|] eqn:Ht; [|now left].
    destruct (forallb _ _) eqn:Hq; [|now left].
    right. right. right. left. eexists.
    split; [reflexivity|]. simpl.
    split; [|split; [reflexivity|split; [|exact Hq]]].
    2:{ exists totals. split; [now apply line_totals_spec|apply py_sum_spec]. }
    destruct (get_current_user_ok _ _ _ _ Hu)
      as (payload & signature & user_id & document & _ & _ & _ & _ & Hfind & ->).
    exists document. split; [|reflexivity].
    apply (find_one_some _ _ _ Hfind).
  - unfold route_update_order_status, Depends_get_current_user.
    destruct (get_current_user _ _ _); [|now left].
    unfold update_order_status. destruct (negb _); [now left|].
    destruct (find_one (fun o => String.eqb (Order.id o) order_id) (orders s)) as [o|] eqn:Hfind.
    + destruct (find_one_split _ _ _ Hfind) as (before & after & Horders & Hq & Hb).
      right. right. right. right. left.
      exists before, o, after, status, (datetime_now now'). split; [exact Horders|].
      rewrite Horders at 1.
      now rewrite (update_one_split _ _ before after o Hb Hq).
    + left. rewrite update_one_unmatched by (apply find_one_none; exact Hfind).
      simpl. apply db_eta.
  - unfold route_create_review, Depends_get_current_user.
    destruct (get_current_user _ _ _) as [u|] eqn:Hu; [|now left].
    unfold ReviewCreate_validate.
    destruct (rating_in_range (ReviewCreate.rating body)) eqn:Hr; [|now left].
    unfold create_review.
    destruct (find_one _ (products s)) as [p|] eqn:Hp; [|now left].
    rewrite Hr.
    right. right. right. right. right. eexists. split; [reflexivity|]. simpl.
    split; [now apply rating_in_range_iff|]. split.
    + exists p. destruct (find_one_some _ _ _ Hp) as [Hin Hid].
      split; [exact Hin|]. now apply String.eqb_eq.
    + destruct (get_current_user_ok _ _ _ _ Hu)
        as (payload & signature & user_id & document & _ & _ & _ & _ & Hfind & ->).
      exists document. split; [|reflexivity].
      apply (find_one_some _ _ _ Hfind).
Qed.

(** ** Invariants of a deployment *)

Lemma filter_all {A} (query : A -> bool) (collection : list A) :
  (forall x, In x collection -> query x = true) ->
  List.filter query collection = collection.
Proof.
  induction collection as [|x rest IH]; simpl; intros H; [reflexivity|].
  rewrite (H x) by now left. f_equal. apply IH. auto.
Qed.

Lemma reachable_users_shape (s : db) :
  reachable s ->
  exists uuid now rest,
    users s = bson_user (admin_user uuid now) :: rest /\
    forall d, In d rest ->
      UserDocument.role d = CUSTOMER /\ UserDocument.password d = None.
Proof.
  induction 1 as [uuid4 now|s s' Hreach (uuid & now & rest & Husers & Hrest) Hstep].
  - exists (uuid4 7%nat), (now 7%nat), []. split; [reflexivity|]. intros d [].
  - destruct (reachable_unique_emails s Hreach) as [Hp _].
    destruct (step_cases s s' Hstep Hp)
      as [->|[(document & -> & Hrole & Hpw & _)|[(product & -> & _)|
         [(order & -> & _)|[(before & o & after & status & now' & _ & ->)|
         (review & -> & _)]]]]]; simpl;
      try (exists uuid, now, rest; split; [exact Husers|exact Hrest]).
    exists uuid, now, (rest ++ [document]). split.
    + now rewrite Husers.
    + intros d Hd. apply in_app_or in Hd as [Hd|[<-|[]]]; auto.
Qed.

(** No request creates or promotes an administrator: in every state of a
    deployment the seed account admin@cafe.com is the only account whose role
    is admin, and every other account is a customer. *)
Theorem reachable_single_admin (s : db) :
  reachable s ->
  count_documents (fun d => UserRole_eqb (UserDocument.role d) ADMIN) (users s) = 1 /\
  (forall d, In d (users s) -> UserDocument.role d = ADMIN ->
             UserDocument.email d = "admin@cafe.com") /\
  count_documents (fun d => UserRole_eqb (UserDocument.role d) CUSTOMER) (users s)
  = Z.of_nat (List.length (users s)) - 1.
Proof.
  intros Hreach.
  destruct (reachable_users_shape s Hreach) as (uuid & now & rest & Husers & Hrest).
  assert (Hnone : List.filter (fun d => UserRole_eqb (UserDocument.role d) ADMIN) rest = []).
  { apply filter_none. intros d Hd. destruct (Hrest d Hd) as [-> _]. reflexivity. }
  assert (Hall : List.filter (fun d => UserRole_eqb (UserDocument.role d) CUSTOMER) rest = rest).
  { apply filter_all. intros d Hd. destruct (Hrest d Hd) as [-> _]. reflexivity. }
  unfold count_documents. rewrite Husers.
  split; [|split].
  - simpl. now rewrite Hnone.
  - intros d [<-|Hd] Hrole; [reflexivity|].
    destruct (Hrest d Hd) as [Hc _]. congruence.
  - change (List.filter (fun d => UserRole_eqb (UserDocument.role d) CUSTOMER)
              (bson_user (admin_user uuid now) :: rest))
      with (List.filter (fun d => UserRole_eqb (UserDocument.role d) CUSTOMER) rest).
    rewrite Hall. cbn [List.length]. lia.
Qed.

(** In every state of a deployment only the seed administrator can log in: a
    login that succeeds was made with the email admin@cafe.com and a password
    whose digest is that of the seed password (the accounts written by
    [register] hold no digest). *)
Theorem reachable_login_only_admin (s : db) (now : Z)
    (credentials : UserLogin.t) (out : token * User.t) (s' : db) :
  reachable s ->
  login s now credentials = (Ok out, s') ->
  UserLogin.email credentials = "admin@cafe.com" /\
  hash_password (UserLogin.password credentials) = hash_password "admin123" /\
  User.role (snd out) = ADMIN /\
  s' = s.
Proof.
  intros Hreach.
  destruct (reachable_users_shape s Hreach) as (uuid & now0 & rest & Husers & Hrest).
  unfold login.
  destruct (find_one _ (users s)) as [user|] eqn:Hfind; [|discriminate].
  destruct (UserDocument.password user) as [digest|] eqn:Hpw; [|discriminate].
  destruct (String.eqb digest _) eqn:Hdigest; simpl; [|discriminate].
  intros [= <- <-].
  apply String.eqb_eq in Hdigest.
  destruct (find_one_some _ _ _ Hfind) as [Hin Hemail]. simpl in Hemail.
  apply String.eqb_eq in Hemail.
  rewrite Husers in Hin. destruct Hin as [<-|Hin].
  - simpl in *. injection Hpw as <-. repeat split; congruence.
  - destruct (Hrest user Hin) as [_ Hnone]. congruence.
Qed.

(** Every product of a deployment is available (nothing the service does
    clears the flag), so the listing without a category is the whole
    catalog. *)
Theorem reachable_products_available (s : db) :
  reachable s ->
  (forall p, In p (products s) -> Product.available p = true) /\
  get_products s None = products s.
Proof.
  intros Hreach.
  assert (Hall : forall p, In p (products s) -> Product.available p = true).
  { induction Hreach as [uuid4 now|s s' Hreach IH Hstep].
    - unfold init_sample_data, sample_products. simpl.
      intros p Hp. repeat (destruct Hp as [<-|Hp]; [reflexivity|]). destruct Hp.
    - destruct (reachable_unique_emails s Hreach) as [Hp _].
      destruct (step_cases s s' Hstep Hp)
        as [->|[(document & -> & _)|[(product & -> & Hav)|
           [(order & -> & _)|[(before & o & after & status & now' & _ & ->)|
           (review & -> & _)]]]]]; simpl; auto.
      intros p Hin. apply in_app_or in Hin as [Hin|[<-|[]]]; auto. }
  split; [exact Hall|].
  unfold get_products. apply filter_all.
  intros p Hp. rewrite (Hall p Hp). reflexivity.
Qed.


(** Every review of a deployment has a rating between 1 and 5, names a
    product that is in the catalog and an author that is a stored account. *)
Theorem reachable_reviews_valid (s : db) (r : Review.t) :
  reachable s ->
  In r (reviews s) ->
  1 <= Review.rating r <= 5 /\
  (exists p, In p (products s) /\ Product.id p = Review.product_id r) /\
  (exists d, In d (users s) /\ UserDocument.id d = Review.user_id r).
Proof.
  intros Hreach. revert r.
  induction Hreach as [uuid4 now|s s' Hreach IH Hstep]; [intros r []|].
  destruct (reachable_unique_emails s Hreach) as [Hp _].
  destruct (step_cases s s' Hstep Hp)
    as [->|[(document & -> & _)|[(product & -> & _)|
       [(order & -> & _)|
       [(before & x & after & status & now' & Horders & ->)|
       (review & -> & Hrating & Hproduct & Hauthor)]]]]]; simpl; auto.
  - intros r Hin. destruct (IH r Hin) as (Hr & Hprod & (d & Hd & Hid)).
    split; [exact Hr|]. split; [exact Hprod|].
    exists d. split; [|exact Hid]. apply in_or_app. now left.
  - intros r Hin. destruct (IH r Hin) as (Hr & (p & Hin' & Hid) & Hauth).
    split; [exact Hr|]. split; [|exact Hauth].
    exists p. split; [|exact Hid]. apply in_or_app. now left.
  - intros r Hin. apply in_app_or in Hin as [Hin|[<-|[]]]; [now apply IH|].
    auto.
Qed.

(** ** Authentication *)




(** The email and role written in a token are never consulted: two live
    tokens signed by the server for the same [user_id] resolve to the same
    answer, the account (and role) the store holds under that id. *)
Theorem get_current_user_reads_the_store (s : db) (now : Z) (payload payload' : Payload.t) :
  jwt_decode (jwt_encode payload SECRET_KEY) SECRET_KEY now = Decoded payload ->
  jwt_decode (jwt_encode payload' SECRET_KEY) SECRET_KEY now = Decoded payload' ->
  Payload.user_id payload = Payload.user_id payload' ->
  get_current_user s now (jwt_encode payload SECRET_KEY)
  = get_current_user s now (jwt_encode payload' SECRET_KEY) /\
  forall u, get_current_user s now (jwt_encode payload SECRET_KEY) = Ok u ->
            exists document, In document (users s) /\
                             User.role u = UserDocument.role document /\
                             User.email u = UserDocument.email document /\
                             Some (User.id u) = Payload.user_id payload.
Proof.
  intros Hd Hd' Hid. split.
  - unfold get_current_user. now rewrite Hd, Hd', Hid.
  - intros u Hu. unfold get_current_user in Hu. rewrite Hd in Hu.
    destruct (Payload.user_id payload) as [user_id|]; [|discriminate].
    destruct (find_one _ (users s)) as [document|] eqn:Hfind; [|discriminate].
    injection Hu as <-. exists document.
    destruct (find_one_some _ _ _ Hfind) as [Hin Heq]. simpl in Heq.
    apply String.eqb_eq in Heq. simpl. repeat split; auto. congruence.
Qed.

Lemma create_token_live (user_id email role : string) (issued now : Z) :
  0 <= issued ->
  issued <= now <= issued + seconds 86399 ->
  jwt_decode (create_token user_id email role issued) SECRET_KEY now
  = Decoded {| Payload.user_id := Some user_id;
               Payload.email := Some email;
               Payload.role := Some role;
               Payload.exp := Some (issued + seconds 86400) |}.
Proof.
  intros Hissued Hnow.
  rewrite jwt_decode_create_token.
  pose proof (truncated_seconds (issued + seconds 86400)) as H.
  destruct (_ <=? now) eqn:E; [|reflexivity].
  apply Z.leb_le in E. exfalso.
  generalize dependent (seconds (Z.quot (issued + seconds 86400) 1000000)).
  unfold seconds in *. intros. lia.
Qed.

(** The token a successful login answers authenticates, for the next 24
    hours less a second, as the very account the login answered (the account
    ids of the store being distinct); the login itself writes nothing. *)
Theorem login_then_get_current_user (s : db) (now : Z)
    (credentials : UserLogin.t) (token : token) (user : User.t) (s' : db) :
  login s now credentials = (Ok (token, user), s') ->
  NoDup (map UserDocument.id (users s)) ->
  0 <= now ->
  s' = s /\
  User.email user = UserLogin.email credentials /\
  forall now', now <= now' <= now + seconds 86399 ->
               get_current_user s' now' token = Ok user.
Proof.
  unfold login.
  destruct (find_one _ (users s)) as [document|] eqn:Hfind; [|discriminate].
  destruct (UserDocument.password document) as [digest|]; [|discriminate].
  destruct (negb _); [discriminate|].
  intros [= <- <- <-] Hnd Hnow.
  destruct (find_one_some _ _ _ Hfind) as [Hin Hemail]. simpl in Hemail.
  apply String.eqb_eq in Hemail.
  repeat split; auto.
  intros now' Hnow'. unfold get_current_user.
  rewrite create_token_live by assumption. simpl.
  now rewrite (find_one_unique UserDocument.id (users s) document Hnd Hin).
Qed.

(** The token a successful registration answers authenticates, for the next
    24 hours less a second, as the account just created (the identifier drawn
    being new to the store): a customer with the id, email, name, phone and
    address of the registration, whose [created_at] comes back from the
    store naive and cut down to whole milliseconds. *)
Theorem register_then_get_current_user (s : db) (uuid : string) (now now' : Z)
    (user : UserCreate.t) (token : token) (user_obj : User.t) (s' : db) :
  register s uuid now now' user = (Ok (token, user_obj), s') ->
  (forall d, In d (users s) -> UserDocument.id d <> uuid) ->
  0 <= now' ->
  User.role user_obj = CUSTOMER /\
  User.id user_obj = uuid /\
  User.email user_obj = UserCreate.email user /\
  User.name user_obj = UserCreate.name user /\
  User.created_at user_obj = {| instant := now; aware := true |} /\
  forall t, now' <= t <= now' + seconds 86399 ->
            get_current_user s' t token
            = Ok {| User.id := uuid;
                    User.email := UserCreate.email user;
                    User.name := UserCreate.name user;
                    User.role := CUSTOMER;
                    User.phone := UserCreate.phone user;
                    User.address := UserCreate.address user;
                    User.created_at :=
                      {| instant := now / 1000 * 1000; aware := false |} |}.
Proof.
  unfold register.
  destruct (find_one _ (users s)) as [existing|]; [discriminate|].
  intros [= <- <- <-] Hfresh Hnow. simpl.
  repeat split.
  intros t Ht.
  unfold get_current_user.
  rewrite create_token_live by assumption. simpl.
  rewrite (find_one_app_new _ bson_user).
  - reflexivity.
  - intros d Hd. apply String.eqb_neq. now apply Hfresh.
  - apply String.eqb_refl.
Qed.

(** Registering twice with one email: whatever the state, once a registration
    has succeeded a second one with the same email (any name, password or
    identifier) is refused with HTTP 400 and writes nothing. *)
Theorem register_twice (s : db) (uuid uuid' : string) (now now' t t' : Z)
    (user user' : UserCreate.t) (out : token * User.t) (s' : db) :
  register s uuid now now' user = (Ok out, s') ->
  UserCreate.email user' = UserCreate.email user ->
  register s' uuid' t t' user'
  = (Raise (HTTPException 400 "Email already registered"), s').
Proof.
  intros H Hemail.
  destruct (register_ok _ _ _ _ _ _ _ H)
    as (Hnew & document & Husers & _ & _ & _ & _ & Hdoc & _).
  unfold register. rewrite Husers, Hemail.
  rewrite find_one_app_last; [reflexivity| |].
  - intros d Hd. apply String.eqb_neq. now apply Hnew.
  - rewrite Hdoc. apply String.eqb_refl.
Qed.

(** A login never writes, and an unknown email and a wrong password get the
    same answer, HTTP 401 "Invalid credentials". *)
Theorem login_failures (s : db) (now : Z) (credentials : UserLogin.t) :
  snd (login s now credentials) = s /\
  (find_one (fun d => String.eqb (UserDocument.email d) (UserLogin.email credentials)) (users s)
   = None ->
   login s now credentials = (Raise (HTTPException 401 "Invalid credentials"), s)) /\
  (forall document digest,
      find_one (fun d => String.eqb (UserDocument.email d) (UserLogin.email credentials)) (users s)
      = Some document ->
      UserDocument.password document = Some digest ->
      digest <> hash_password (UserLogin.password credentials) ->
      login s now credentials = (Raise (HTTPException 401 "Invalid credentials"), s)).
Proof.
  unfold login. split; [|split].
  - destruct (find_one _ _) as [user|]; [|reflexivity].
    destruct (UserDocument.password user); [|reflexivity].
    now destruct (negb _).
  - now intros ->.
  - intros document digest -> -> Hne.
    apply String.eqb_neq in Hne. now rewrite Hne.
Qed.

(** Time only closes a token: on a given database, a credential refused as
    expired at some instant is refused as expired at every later instant, and
    a token written by [create_token] that resolves to an account at some
    instant resolved to the same account at every earlier one. *)
Theorem expired_token_stays_expired (s : db) (credentials : token) (now now' : Z) :
  now <= now' ->
  (get_current_user s now credentials = Raise (HTTPException 401 "Token expired") ->
   get_current_user s now' credentials = Raise (HTTPException 401 "Token expired")) /\
  (forall user_id email role issued u,
      credentials = create_token user_id email role issued ->
      get_current_user s now' credentials = Ok u ->
      get_current_user s now credentials = Ok u).
Proof.
  intros Hle.
  assert (H : (get_current_user s now credentials = Raise (HTTPException 401 "Token expired") ->
               get_current_user s now' credentials = Raise (HTTPException 401 "Token expired")) /\
              (forall u, get_current_user s now' credentials = Ok u ->
                         get_current_user s now credentials = Ok u)).
  { unfold get_current_user, jwt_decode.
    destruct credentials as [|payload signature]; [split; [discriminate|discriminate]|].
    destruct (negb _); [split; [discriminate|discriminate]|].
    destruct (Payload.exp payload) as [exp|].
    - destruct (_ <=? now) eqn:E; destruct (_ <=? now') eqn:E'.
      + split; [reflexivity|discriminate].
      + apply Z.leb_le in E. apply Z.leb_gt in E'. lia.
      + split; [reflexivity|discriminate].
      + split; [|auto].
        destruct (Payload.user_id payload); [|discriminate].
        destruct (find_one _ _); discriminate.
    - split; [|auto].
      destruct (Payload.user_id payload); [|discriminate].
      destruct (find_one _ _); discriminate. }
  destruct H as [Hexpired Hlive].
  split; [exact Hexpired|].
  intros user_id email role issued u _. apply Hlive.
Qed.


(** ** Startup and catalog *)

(** The startup hook is idempotent: run again on the database it has seeded
    (with whatever identifiers and clock readings) it changes nothing; and it
    never touches a database whose catalog is not empty. *)
Theorem init_sample_data_idempotent (s : db)
    (uuid4 uuid4' : nat -> string) (now now' : nat -> Z) :
  init_sample_data (init_sample_data s uuid4 now) uuid4' now' = init_sample_data s uuid4 now /\
  (products s <> [] -> init_sample_data s uuid4 now = s) /\
  products (init_sample_data s uuid4 now) <> [].
Proof.
  assert (Hkeep : forall t u n, products t <> [] -> init_sample_data t u n = t).
  { intros t u n Ht. unfold init_sample_data. now rewrite count_documents_pos. }
  assert (Hseeded : products (init_sample_data s uuid4 now) <> []).
  { unfold init_sample_data.
    destruct (0 <? count_documents _ (products s)) eqn:E.
    - intros Hnil. rewrite Hnil in E. discriminate.
    - simpl. unfold sample_products. intros Hnil.
      apply app_eq_nil in Hnil as [_ Hnil]. discriminate. }
  split; [|split].
  - apply Hkeep, Hseeded.
  - apply Hkeep.
  - exact Hseeded.
Qed.

(** The sample products can be stored, whatever keys the driver checks. *)
Lemma sample_products_encoded (uuid4 : nat -> string) (now : nat -> Z) :
  forall p, In p (sample_products uuid4 now) ->
            bson_dict check_keys (Product.nutritional_info p) = None.
Proof.
  intros p Hp. unfold sample_products in Hp.
  repeat (destruct Hp as [<-|Hp]; [now destruct check_keys|]).
  destruct Hp.
Qed.

(** A product created by an administrator, under an identifier new to the
    catalog and with nutritional attributes the store can encode, is
    available, is found by [get_product] under that identifier in its stored
    form ([created_at] naive and cut down to whole milliseconds), and comes
    last in the listing; looking up any other identifier answers what it
    answered before.  When the attributes cannot be encoded (a key with a NUL
    character or, for a driver that checks keys, with a dot or a leading
    dollar sign; an integer outside 64 bits) the creation raises the
    encoder's exception and writes nothing. *)
Theorem create_product_then_lookup (s : db) (uuid : string) (now : Z)
    (product : ProductCreate.t) (admin : User.t) :
  User.role admin = ADMIN ->
  (forall p, In p (products s) -> Product.id p <> uuid) ->
  (bson_dict check_keys (ProductCreate.nutritional_info product) = None ->
   exists product_obj s',
     create_product s uuid now product admin = (Ok product_obj, s') /\
     Product.available product_obj = true /\
     Product.name product_obj = ProductCreate.name product /\
     Product.price product_obj = ProductCreate.price product /\
     Product.created_at product_obj = {| instant := now; aware := true |} /\
     get_product s' uuid = Ok (bson_product product_obj) /\
     Product.created_at (bson_product product_obj)
     = {| instant := now / 1000 * 1000; aware := false |} /\
     get_products s' None = get_products s None ++ [bson_product product_obj] /\
     (forall product_id,
         product_id <> uuid -> get_product s' product_id = get_product s product_id)) /\
  (forall e,
      bson_dict check_keys (ProductCreate.nutritional_info product) = Some e ->
      (e = InvalidDocument \/ e = OverflowError) /\
      create_product s uuid now product admin = (Raise e, s)).
Proof.
  intros Hrole Hfresh.
  unfold create_product. rewrite Hrole. simpl negb. cbv iota. simpl Product.nutritional_info.
  split.
  - intros ->.
    eexists. eexists. split; [reflexivity|]. simpl.
    split; [reflexivity|]. split; [reflexivity|]. split; [reflexivity|].
    split; [reflexivity|].
    split; [|split; [reflexivity|split]].
    + unfold get_product. simpl. rewrite (find_one_app_new _ bson_product); [reflexivity| |].
      * intros p Hp. apply String.eqb_neq. now apply Hfresh.
      * apply String.eqb_refl.
    + unfold get_products, insert_one. simpl. now rewrite filter_app.
    + intros product_id Hne. unfold get_product, find_one, insert_one. simpl.
      induction (products s) as [|p rest IH]; simpl.
      * assert (E : String.eqb uuid product_id = false) by (apply String.eqb_neq; congruence).
        now rewrite E.
      * destruct (String.eqb (Product.id p) product_id); [reflexivity|].
        apply IH. intros q Hq. apply Hfresh. now right.
  - intros e He. rewrite He. split; [|reflexivity].
    clear -He. induction (ProductCreate.nutritional_info product) as [|[key v] rest IH];
      simpl in He; [discriminate|].
    destruct (negb (bson_key _ key)); [injection He as <-; now left|].
    destruct (negb (bson_value v)); [injection He as <-; now right|].
    now apply IH.
Qed.

(** ** Orders *)

(** [create_order] fails only with [OverflowError], and then it writes
    nothing; it does fail whenever some quantity is not a signed 64-bit
    integer. *)
Theorem create_order_rejects_wide_quantities (s : db) (uuid : string) (now now' : Z)
    (order : OrderCreate.t) (current_user : User.t) :
  (forall e s',
      create_order s uuid now now' order current_user = (Raise e, s') ->
      e = OverflowError /\ s' = s) /\
  (forall item,
      In item (OrderCreate.items order) ->
      bson_int64 (OrderItem.quantity item) = false ->
      create_order s uuid now now' order current_user = (Raise OverflowError, s)).
Proof.
  unfold create_order. split.
  - intros e s'.
    destruct (line_totals _); [|now intros [= <- <-]].
    destruct (forallb _ _); [discriminate|now intros [= <- <-]].
  - intros item Hin Hwide.
    destruct (line_totals _); [|reflexivity].
    destruct (forallb _ _) eqn:E; [|reflexivity].
    rewrite forallb_forall in E. rewrite (E item Hin) in Hwide. discriminate.
Qed.

(** An order without items is accepted: it is stored (in its stored form) as
    a pending order of the caller with total 0. *)
Theorem create_order_accepts_empty_order (s : db) (uuid : string) (now now' : Z)
    (order : OrderCreate.t) (current_user : User.t) :
  OrderCreate.items order = [] ->
  exists o,
    create_order s uuid now now' order current_user
    = (Ok o, {| users := users s; products := products s;
                orders := orders s ++ [bson_order o]; reviews := reviews s |}) /\
    Order.items o = [] /\
    Order.total_amount o = 0%float /\
    Order.status o = PENDING /\
    Order.user_id o = User.id current_user.
Proof.
  intros Hitems. unfold create_order. rewrite Hitems. simpl.
  eexists. split; [reflexivity|]. simpl. repeat split.
Qed.

(** An administrator's status update on an identifier that no order has
    answers HTTP 404 "Order not found" and leaves the database as it was. *)
Theorem update_order_status_unknown_id (s : db) (now : Z) (order_id : string)
    (status : OrderStatus) (admin : User.t) :
  User.role admin = ADMIN ->
  find_one (fun o => String.eqb (Order.id o) order_id) (orders s) = None ->
  update_order_status s now order_id status admin
  = (Raise (HTTPException 404 "Order not found"), s).
Proof.
  intros Hrole Hfind. unfold update_order_status. rewrite Hrole. simpl negb. cbv iota.
  rewrite update_one_unmatched by (apply find_one_none; exact Hfind).
  simpl. now rewrite db_eta.
Qed.

(** [get_order] answers HTTP 404 for an identifier that no order has, whoever
    asks, and the lookup comes before the ownership check; an account that is
    not a customer gets any order that is found. *)
Theorem get_order_lookup (s : db) (order_id : string) (current_user : User.t) :
  (find_one (fun o => String.eqb (Order.id o) order_id) (orders s) = None ->
   get_order s order_id current_user = Raise (HTTPException 404 "Order not found")) /\
  (forall o,
      find_one (fun o => String.eqb (Order.id o) order_id) (orders s) = Some o ->
      User.role current_user = ADMIN ->
      get_order s order_id current_user = Ok o) /\
  (forall e,
      get_order s order_id current_user = Raise e ->
      e = HTTPException 404 "Order not found" \/
      (e = HTTPException 403 "Access denied" /\ User.role current_user = CUSTOMER)).
Proof.
  unfold get_order. split; [|split].
  - now intros ->.
  - intros o -> Hrole. now rewrite Hrole.
  - intros e. destruct (find_one _ _) as [o|]; [|intros [= <-]; now left].
    destruct (UserRole_eqb (User.role current_user) CUSTOMER) eqn:Hrole; simpl.
    + destruct (negb _); [|discriminate].
      intros [= <-]. right. split; [reflexivity|]. now apply UserRole_eqb_eq.
    + discriminate.
Qed.

(** ** Listings *)

Lemma insert_desc_perm {A} (key : A -> Z) (d : A) (sorted : list A) :
  Permutation (insert_desc key d sorted) (d :: sorted).
Proof.
  induction sorted as [|x rest IH]; simpl; [reflexivity|].
  destruct (key x <=? key d); [reflexivity|].
  rewrite IH. apply perm_swap.
Qed.

Lemma sort_desc_perm {A} (key : A -> Z) (collection : list A) :
  Permutation (sort_desc key collection) collection.
Proof.
  induction collection as [|d rest IH]; simpl; [reflexivity|].
  rewrite insert_desc_perm. now constructor.
Qed.

Lemma insert_desc_sorted {A} (key : A -> Z) (d : A) (sorted : list A) :
  StronglySorted (fun a b => key b <= key a) sorted ->
  StronglySorted (fun a b => key b <= key a) (insert_desc key d sorted).
Proof.
  induction sorted as [|x rest IH]; simpl; intros Hs.
  - repeat constructor.
  - inversion Hs as [|? ? Hrest Hx]; subst.
    destruct (key x <=? key d) eqn:E.
    + apply Z.leb_le in E. constructor; [exact Hs|].
      constructor; [exact E|].
      eapply Forall_impl; [|exact Hx]. simpl. intros b Hb. lia.
    + apply Z.leb_gt in E. constructor; [now apply IH|].
      apply (Permutation_Forall (Permutation_sym (insert_desc_perm key d rest))).
      constructor; [lia|exact Hx].
Qed.

Lemma sort_desc_sorted {A} (key : A -> Z) (collection : list A) :
  StronglySorted (fun a b => key b <= key a) (sort_desc key collection).
Proof.
  induction collection as [|d rest IH]; simpl; [constructor|].
  now apply insert_desc_sorted.
Qed.

(** The order listing is a rearrangement, newest first, of the caller's own
    orders when the caller is a customer, and of all the orders otherwise: a
    customer never sees an order of another account. *)
Theorem get_orders_isolation (s : db) (current_user : User.t) :
  (forall o,
      In o (get_orders s current_user) <->
      In o (orders s) /\
      (User.role current_user = CUSTOMER -> Order.user_id o = User.id current_user)) /\
  StronglySorted
    (fun a b => instant (Order.created_at b) <= instant (Order.created_at a))
    (get_orders s current_user) /\
  (User.role current_user = ADMIN -> Permutation (get_orders s current_user) (orders s)).
Proof.
  unfold get_orders. split; [|split].
  - intros o.
    rewrite (Permutation_in' (eq_refl o) (sort_desc_perm _ _)).
    rewrite filter_In.
    destruct (User.role current_user); simpl.
    + rewrite String.eqb_eq. tauto.
    + split; [intros [H _]; split; [exact H|discriminate]|tauto].
  - apply (sort_desc_sorted (fun o => instant (Order.created_at o))).
  - intros ->. simpl. rewrite sort_desc_perm.
    now rewrite filter_all.
Qed.

(** The reviews listed for a product are a rearrangement, newest first, of
    exactly the stored reviews of that product. *)
Theorem get_product_reviews_listing (s : db) (product_id : string) :
  (forall r,
      In r (get_product_reviews s product_id) <->
      In r (reviews s) /\ Review.product_id r = product_id) /\
  StronglySorted
    (fun a b => instant (Review.created_at b) <= instant (Review.created_at a))
    (get_product_reviews s product_id) /\
  Permutation (get_product_reviews s product_id)
    (List.filter (fun r => String.eqb (Review.product_id r) product_id) (reviews s)).
Proof.
  unfold get_product_reviews. split; [|split].
  - intros r.
    rewrite (Permutation_in' (eq_refl r) (sort_desc_perm _ _)).
    now rewrite filter_In, String.eqb_eq.
  - apply (sort_desc_sorted (fun r => instant (Review.created_at r))).
  - apply sort_desc_perm.
Qed.

(** ** Reviews *)

(** Nothing limits the reviews of one account on one product: after a review
    has been created, the same request succeeds again, and both reviews are
    stored and listed for the product, each in its stored form (the creation
    time naive and cut down to whole milliseconds). *)
Theorem create_review_twice (s : db) (uuid uuid' : string) (now now' : Z)
    (review : ReviewCreate.t) (current_user : User.t) (r : Review.t) (s1 : db) :
  create_review s uuid now review current_user = (Ok r, s1) ->
  exists r' s2,
    create_review s1 uuid' now' review current_user = (Ok r', s2) /\
    reviews s2 = reviews s ++ [bson_review r; bson_review r'] /\
    Review.user_name r = User.name current_user /\
    Review.created_at r = {| instant := now; aware := true |} /\
    Review.created_at (bson_review r) = {| instant := now / 1000 * 1000; aware := false |} /\
    In (bson_review r) (get_product_reviews s2 (ReviewCreate.product_id review)) /\
    In (bson_review r') (get_product_reviews s2 (ReviewCreate.product_id review)).
Proof.
  unfold create_review.
  destruct (find_one _ (products s)) as [p|] eqn:Hp; [|discriminate].
  destruct (rating_in_range _) eqn:Hr; [|discriminate].
  intros [= <- <-]. simpl. rewrite Hp.
  eexists. eexists. split; [reflexivity|]. simpl.
  unfold insert_one. rewrite <- app_assoc. simpl.
  split; [reflexivity|]. split; [reflexivity|].
  split; [reflexivity|]. split; [reflexivity|].
  split.
  - apply (Permutation_in _ (Permutation_sym (sort_desc_perm _ _))).
    apply filter_In. simpl. split; [|apply String.eqb_refl].
    apply in_or_app. right. now left.
  - apply (Permutation_in _ (Permutation_sym (sort_desc_perm _ _))).
    apply filter_In. simpl. split; [|apply String.eqb_refl].
    apply in_or_app. right. right. now left.
Qed.

(** ** Search *)

(** The search ignores the case of the query: two queries of ordinary
    characters that differ only by case return the same products. *)
Theorem search_ignores_case (s : db) (q q' : string) :
  literal q = true ->
  literal q' = true ->
  lowercase q = lowercase q' ->
  text_catalog s = true ->
  search_products s q = search_products s q'.
Proof.
  intros Hq Hq' Hcase Htext.
  unfold search_products.
  rewrite (regex_compile_literal q Hq), (regex_compile_literal q' Hq').
  rewrite (find_all_total _
             (fun p => (Product.available p &&
                        (contains_cib q (Product.name p) ||
                         contains_cib q (Product.description p)))%bool)).
  - rewrite (find_all_total _
               (fun p => (Product.available p &&
                          (contains_cib q' (Product.name p) ||
                           contains_cib q' (Product.description p)))%bool)).
    + unfold contains_cib. now rewrite Hcase.
    + intros p Hp.
      unfold text_catalog in Htext. rewrite forallb_forall in Htext.
      apply Htext, andb_true_iff in Hp as [Hname Hdescription].
      unfold search_query, regex_on. rewrite Hname, Hdescription.
      rewrite !match_anywhere_literal.
      destruct (Product.available p); [|reflexivity].
      simpl. now destruct (contains_cib q' (Product.name p)),
                          (contains_cib q' (Product.description p)).
  - intros p Hp.
    unfold text_catalog in Htext. rewrite forallb_forall in Htext.
    apply Htext, andb_true_iff in Hp as [Hname Hdescription].
    unfold search_query, regex_on. rewrite Hname, Hdescription.
    rewrite !match_anywhere_literal.
    destruct (Product.available p); [|reflexivity].
    simpl. now destruct (contains_cib q (Product.name p)),
                        (contains_cib q (Product.description p)).
Qed.

(** The empty query matches everything: over a catalog of printable text the
    search with an empty query answers the listing of the available
    products. *)
Theorem search_empty_query (s : db) :
  text_catalog s = true ->
  search_products s EmptyString = Some (get_products s None).
Proof.
  intros Htext. unfold search_products, get_products. simpl regex_compile.
  apply find_all_total. intros p Hp.
  unfold text_catalog in Htext. rewrite forallb_forall in Htext.
  apply Htext, andb_true_iff in Hp as [Hname _].
  unfold search_query, regex_on. rewrite Hname.
  destruct (Product.available p); [|reflexivity].
  assert (Hany : forall subject, match_anywhere [] subject = true)
    by (intros [|c subject]; reflexivity).
  rewrite Hany. simpl.
  destruct (string_forallb printable (Product.description p)); reflexivity.
Qed.

(** ** Dashboard *)

Lemma count_documents_insert_one {A} (query : A -> bool) (collection : list A) (d : A) :
  count_documents query (collection ++ [d])
  = count_documents query collection + (if query d then 1 else 0).
Proof.
  unfold count_documents.
  rewrite filter_app, length_app. simpl.
  destruct (query d); simpl; lia.
Qed.

(** The dashboard follows the writes: a created order adds one to the total
    and one to the pending orders, a registration adds one to the customers,
    and neither changes the other counts. *)
Theorem dashboard_counts_follow_writes (s : db) (admin : User.t) (st : stats) :
  get_dashboard_stats s admin = Ok st ->
  (forall uuid now now' order current_user o s',
      create_order s uuid now now' order current_user = (Ok o, s') ->
      get_dashboard_stats s' admin
      = Ok {| total_products := total_products st;
              total_orders := total_orders st + 1;
              total_users := total_users st;
              pending_orders := pending_orders st + 1 |}) /\
  (forall uuid now now' user out s',
      register s uuid now now' user = (Ok out, s') ->
      get_dashboard_stats s' admin
      = Ok {| total_products := total_products st;
              total_orders := total_orders st;
              total_users := total_users st + 1;
              pending_orders := pending_orders st |}).
Proof.
  unfold get_dashboard_stats.
  destruct (negb _); [discriminate|].
  intros [= <-]. simpl. split.
  - intros uuid now now' order current_user o s' H.
    destruct (create_order_ok _ _ _ _ _ _ _ _ H) as (totals & _ & -> & ->).
    simpl. rewrite !count_documents_insert_one. simpl.
    reflexivity.
  - intros uuid now now' user out s' H.
    destruct (register_ok _ _ _ _ _ _ _ H)
      as (_ & document & Husers & Hp & Ho & _ & _ & _ & Hrole & _).
    rewrite Husers, Hp, Ho, count_documents_insert_one, Hrole. simpl.
    reflexivity.
Qed.

End Server.

(** * The model at work

    The statements above, run on a small deployment: the database after the
    startup hook, with the stand-ins for the digest and the signature. *)

Lemma C1_registered_account_cannot_log_in_witness :
  let s := init_sample_data example_sha256 empty_db example_uuid4 example_now in
  let ann := {| UserCreate.email := "ann@example.com"; UserCreate.name := "Ann";
                UserCreate.password := "s3cret"; UserCreate.phone := None;
                UserCreate.address := None |} in
  exists out s',
    register example_sha256 example_HS256 s "u-ann" (example_now 8) (example_now 9) ann
    = (Ok out, s') /\
    login example_sha256 example_HS256 s' (example_now 10)
      {| UserLogin.email := "ann@example.com"; UserLogin.password := "s3cret" |}
    = (Raise (KeyError "password"), s').
Proof.
  intros s ann. eexists. eexists. split.
  - reflexivity.
  - apply (C1_registered_account_cannot_log_in example_sha256 example_HS256
             s "u-ann" (example_now 8) (example_now 9) ann _ _ eq_refl).
Defined.

Lemma C2_token_verification_witness :
  0 <= example_now 0 /\
  jwt_decode example_HS256
    (create_token example_HS256 "u-ann" "ann@example.com" "customer" (example_now 0))
    SECRET_KEY (example_now 0)
  = Decoded {| Payload.user_id := Some "u-ann";
               Payload.email := Some "ann@example.com";
               Payload.role := Some "customer";
               Payload.exp := Some (example_now 0 + seconds 86400) |} /\
  jwt_decode example_HS256
    (create_token example_HS256 "u-ann" "ann@example.com" "customer" (example_now 0))
    SECRET_KEY (example_now 0 + seconds 86400 + 1)
  = ExpiredSignatureError.
Proof.
  assert (H : 0 <= example_now 0) by (vm_compute; discriminate).
  split; [exact H|].
  destruct (C2_token_verification example_HS256 "u-ann" "ann@example.com" "customer"
              (example_now 0) H) as (Hlive & _ & Hdead & _).
  split.
  - apply Hlive. vm_compute. split; discriminate.
  - apply Hdead. vm_compute. reflexivity.
Defined.

Lemma C3_duplicate_email_is_refused_witness :
  let s := init_sample_data example_sha256 empty_db example_uuid4 example_now in
  let ann := {| UserCreate.email := "ann@example.com"; UserCreate.name := "Ann";
                UserCreate.password := "s3cret"; UserCreate.phone := None;
                UserCreate.address := None |} in
  let s' := snd (register example_sha256 example_HS256 s "u-ann"
                   (example_now 8) (example_now 9) ann) in
  reachable example_sha256 example_HS256 false false s' /\
  register example_sha256 example_HS256 s' "u-ann2" (example_now 10) (example_now 11) ann
  = (Raise (HTTPException 400 "Email already registered"), s') /\
  accounts_with_email s' "ann@example.com" = 1.
Proof.
  intros s ann s'.
  assert (Hreach : reachable example_sha256 example_HS256 false false s').
  { apply (reachable_step example_sha256 example_HS256 false false s s').
    - apply reachable_startup.
    - apply step_register. }
  split; [exact Hreach|].
  destruct (C3_duplicate_email_is_refused example_sha256 example_HS256 false false s' "u-ann2"
              (example_now 10) (example_now 11) ann Hreach) as (Hrefused & Hcount).
  - eexists. split; [right; left; reflexivity|reflexivity].
  - split; [exact Hrefused|].
    rewrite Hrefused in Hcount. exact Hcount.
Defined.

Lemma C4_customer_is_forbidden_witness :
  let s := init_sample_data example_sha256 empty_db example_uuid4 example_now in
  let ann := {| User.id := "u-ann"; User.email := "ann@example.com"; User.name := "Ann";
                User.role := CUSTOMER; User.phone := None; User.address := None;
                User.created_at := datetime_now (example_now 8) |} in
  User.role ann = CUSTOMER /\
  update_order_status s (example_now 9) "o-1" READY ann
  = (Raise (HTTPException 403 "Admin access required"), s) /\
  get_dashboard_stats s ann = Raise (HTTPException 403 "Admin access required").
Proof.
  intros s ann.
  split; [reflexivity|].
  destruct (C4_customer_is_forbidden example_HS256 false s ann eq_refl)
    as (_ & Hupdate & Hstats & _).
  split; [apply Hupdate|apply Hstats].
Defined.

Lemma C5_order_access_witness :
  let s := init_sample_data example_sha256 empty_db example_uuid4 example_now in
  let ann := {| User.id := "u-ann"; User.email := "ann@example.com"; User.name := "Ann";
                User.role := CUSTOMER; User.phone := None; User.address := None;
                User.created_at := datetime_now (example_now 8) |} in
  let bob := {| User.id := "u-bob"; User.email := "bob@example.com"; User.name := "Bob";
                User.role := CUSTOMER; User.phone := None; User.address := None;
                User.created_at := datetime_now (example_now 9) |} in
  let croissants := [ {| OrderItem.product_id := example_uuid4 3; OrderItem.quantity := 3;
                         OrderItem.price := 3.50%float; OrderItem.product_name := "Croissant" |} ] in
  let order := {| OrderCreate.items := croissants;
                  OrderCreate.delivery_address := Some "1 Main Street";
                  OrderCreate.special_instructions := None |} in
  let created := {| Order.id := "o-1"; Order.user_id := "u-ann"; Order.items := croissants;
                    Order.total_amount := 10.5%float; Order.status := PENDING;
                    Order.payment_method := "card";
                    Order.delivery_address := Some "1 Main Street";
                    Order.special_instructions := None;
                    Order.created_at := {| instant := 1700000000000010; aware := true |};
                    Order.updated_at := {| instant := 1700000000000011; aware := true |} |} in
  let stored := {| Order.id := "o-1"; Order.user_id := "u-ann"; Order.items := croissants;
                   Order.total_amount := 10.5%float; Order.status := PENDING;
                   Order.payment_method := "card";
                   Order.delivery_address := Some "1 Main Street";
                   Order.special_instructions := None;
                   Order.created_at := {| instant := 1700000000000000; aware := false |};
                   Order.updated_at := {| instant := 1700000000000000; aware := false |} |} in
  let s' := {| users := users s; products := products s;
               orders := [stored]; reviews := [] |} in
  create_order false s "o-1" (example_now 10) (example_now 11) order ann = (Ok created, s') /\
  unique_order_ids s' /\
  In stored (orders s') /\
  get_order s' "o-1" ann = Ok stored /\
  get_order s' "o-1" bob = Raise (HTTPException 403 "Access denied").
Proof.
  intros s ann bob croissants order created stored s'.
  destruct (C5_order_access false) as (Hother & Howner & Hcreated).
  assert (Hcreate : create_order false s "o-1" (example_now 10) (example_now 11) order ann
                    = (Ok created, s')) by (vm_compute; reflexivity).
  assert (Hunique : unique_order_ids s') by (repeat constructor; intros []).
  assert (Hin : In stored (orders s')) by (left; reflexivity).
  split; [exact Hcreate|].
  split; [exact Hunique|].
  split; [exact Hin|].
  split.
  - destruct (Hcreated s "o-1" (example_now 10) (example_now 11) order ann created s' Hcreate)
      as (_ & Hget & _).
    + intros x [].
    + exact Hget.
  - apply (Hother s' stored bob Hunique Hin).
    + reflexivity.
    + discriminate.
Defined.

(** C5, where the claim goes too far: the record fetched by its owner is not
    the record the creation returned.  An order created at an instant that is
    not a whole number of milliseconds comes back from the store with
    [created_at] and [updated_at] cut down to the millisecond and without
    their time zone, whichever [sum] the interpreter has. *)
Lemma C5_fetched_record_differs :
  let s := init_sample_data example_sha256 empty_db example_uuid4 example_now in
  let ann := {| User.id := "u-ann"; User.email := "ann@example.com"; User.name := "Ann";
                User.role := CUSTOMER; User.phone := None; User.address := None;
                User.created_at := datetime_now (example_now 8) |} in
  let order := {| OrderCreate.items :=
                    [ {| OrderItem.product_id := example_uuid4 3; OrderItem.quantity := 3;
                         OrderItem.price := 3.50%float; OrderItem.product_name := "Croissant" |} ];
                  OrderCreate.delivery_address := Some "1 Main Street";
                  OrderCreate.special_instructions := None |} in
  (forall x, In x (orders s) -> Order.id x <> "o-1") /\
  (exists created s' fetched,
      create_order false s "o-1" (example_now 10) (example_now 11) order ann
      = (Ok created, s') /\
      get_order s' "o-1" ann = Ok fetched /\
      fetched <> created /\
      Order.created_at created = {| instant := 1700000000000010; aware := true |} /\
      Order.created_at fetched = {| instant := 1700000000000000; aware := false |}) /\
  (exists created s' fetched,
      create_order true s "o-1" (example_now 10) (example_now 11) order ann
      = (Ok created, s') /\
      get_order s' "o-1" ann = Ok fetched /\
      fetched <> created).
Proof.
  intros s ann order.
  split; [intros x []|].
  split.
  - eexists. eexists. eexists.
    split; [vm_compute; reflexivity|].
    split; [vm_compute; reflexivity|].
    split; [discriminate|].
    split; reflexivity.
  - eexists. eexists. eexists.
    split; [vm_compute; reflexivity|].
    split; [vm_compute; reflexivity|].
    discriminate.
Qed.


(** Ten amounts of 0.1 (the binary64 number 0x1.999999999999ap-4): added
    from left to right they give 0.9999999999999999 (0x1.fffffffffffffp-1);
    with the compensated [sum] the rounding errors are added back and the
    total is 1.0. *)
Lemma py_sum_ten_dimes :
  let dimes := repeat 0x1.999999999999ap-4%float 10 in
  py_sum false dimes = 0x1.fffffffffffffp-1%float /\
  py_sum true dimes = 1%float /\
  left_to_right_sum dimes = 0x1.fffffffffffffp-1%float /\
  (left_to_right_sum dimes + rounding_errors dimes)%float = 1%float.
Proof.
  intros dimes. repeat split; vm_compute; reflexivity.
Qed.

Lemma C7_review_creation_witness :
  let s := init_sample_data example_sha256 empty_db example_uuid4 example_now in
  let credentials :=
    create_token example_HS256 (example_uuid4 7) "admin@cafe.com" "admin" (example_now 8) in
  let body rating := {| ReviewCreate.product_id := example_uuid4 3;
                        ReviewCreate.rating := rating;
                        ReviewCreate.comment := "Flaky" |} in
  (exists admin, get_current_user example_HS256 s (example_now 9) credentials = Ok admin) /\
  route_create_review example_HS256 s (example_now 9) credentials "r-1" (example_now 10) (body 0)
  = (Raise RequestValidationError, s) /\
  route_create_review example_HS256 s (example_now 9) credentials "r-1" (example_now 10) (body 6)
  = (Raise RequestValidationError, s) /\
  (exists review,
      fst (route_create_review example_HS256 s (example_now 9) credentials "r-1"
             (example_now 10) (body 1)) = Ok review) /\
  (exists review,
      fst (route_create_review example_HS256 s (example_now 9) credentials "r-1"
             (example_now 10) (body 5)) = Ok review).
Proof.
  intros s credentials body.
  assert (Hauth : get_current_user example_HS256 s (example_now 9) credentials
                  = Ok (User_of_document (bson_user (admin_user example_sha256 (example_uuid4 7) (example_now 7)))))
    by reflexivity.
  split; [eexists; exact Hauth|].
  pose proof (fun rating =>
    C7_review_creation example_HS256 s (example_now 9) credentials _ "r-1" (example_now 10)
      (body rating) Hauth) as H.
  split; [|split; [|split]].
  - destruct (H 0) as (_ & Hout & _). apply Hout. left. reflexivity.
  - destruct (H 6) as (_ & Hout & _). apply Hout. right. reflexivity.
  - destruct (H 1) as (_ & _ & _ & Hin & _).
    destruct Hin as (review & Hreview & _).
    + split; discriminate.
    + discriminate.
    + exists review. now rewrite Hreview.
  - destruct (H 5) as (_ & _ & _ & Hin & _).
    destruct Hin as (review & Hreview & _).
    + split; discriminate.
    + discriminate.
    + exists review. now rewrite Hreview.
Defined.



Lemma C9_status_updates_witness :
  let s := init_sample_data example_sha256 empty_db example_uuid4 example_now in
  let ann := {| User.id := "u-ann"; User.email := "ann@example.com"; User.name := "Ann";
                User.role := CUSTOMER; User.phone := None; User.address := None;
                User.created_at := datetime_now (example_now 8) |} in
  let admin := User_of_document (bson_user (admin_user example_sha256 (example_uuid4 7) (example_now 7))) in
  let order := {| OrderCreate.items :=
                    [ {| OrderItem.product_id := example_uuid4 3; OrderItem.quantity := 3;
                         OrderItem.price := 3.50%float; OrderItem.product_name := "Croissant" |} ];
                  OrderCreate.delivery_address := None;
                  OrderCreate.special_instructions := None |} in
  let s' := snd (create_order false s "o-1" (example_now 10) (example_now 11) order ann) in
  (exists o,
      create_order false s "o-1" (example_now 10) (example_now 11) order ann = (Ok o, s') /\
      Order.status o = PENDING) /\
  User.role admin = ADMIN /\
  exists o' after,
    update_order_status s' (example_now 12) "o-1" COMPLETED admin
    = (Ok "Order status updated",
       {| users := users s'; products := products s';
          orders := o' :: after; reviews := reviews s' |}) /\
    Order.status o' = COMPLETED.
Proof.
  intros s ann admin order s'.
  destruct (C9_status_updates false) as (Hcreate & Hupdate).
  split; [|split; [reflexivity|]].
  - eexists. split; [reflexivity|].
    apply (Hcreate s "o-1" (example_now 10) (example_now 11) order ann _ s' eq_refl).
  - destruct (Hupdate s' (example_now 12) "o-1" COMPLETED admin _ eq_refl eq_refl)
      as (before & after & o' & Horders & Hanswer & Hstatus & _).
    destruct before as [|x before].
    + exists o', after. split; [exact Hanswer|exact Hstatus].
    + exfalso. destruct before; discriminate Horders.
Defined.

Lemma C10_unavailable_products_witness :
  let stale := {| Product.id := "p-stale"; Product.name := "Day-old Scone";
                  Product.description := "Sold out"; Product.price := 1.50%float;
                  Product.category := PASTRY; Product.image_url := EmptyString;
                  Product.available := false; Product.ingredients := [];
                  Product.nutritional_info := []; Product.created_at := datetime_now (example_now 0) |} in
  let s := {| users := []; products := [stale]; orders := []; reviews := [] |} in
  find_one (fun x => String.eqb (Product.id x) "p-stale") (products s) = Some stale /\
  Product.available stale = false /\
  get_product s "p-stale" = Ok stale /\
  get_products s None = [] /\
  search_products s "scone" = Some [].
Proof.
  intros stale s.
  split; [reflexivity|].
  split; [reflexivity|].
  destruct (C10_unavailable_products s "p-stale" stale eq_refl eq_refl) as (Hget & _).
  split; [exact Hget|].
  split; reflexivity.
Defined.

(** ** The further properties at work *)

Lemma reachable_single_admin_witness :
  let s := init_sample_data example_sha256 empty_db example_uuid4 example_now in
  let ann := {| UserCreate.email := "ann@example.com"; UserCreate.name := "Ann";
                UserCreate.password := "s3cret"; UserCreate.phone := None;
                UserCreate.address := None |} in
  let s' := snd (register example_sha256 example_HS256 s "u-ann"
                   (example_now 8) (example_now 9) ann) in
  reachable example_sha256 example_HS256 false false s' /\
  count_documents (fun d => UserRole_eqb (UserDocument.role d) ADMIN) (users s') = 1 /\
  count_documents (fun d => UserRole_eqb (UserDocument.role d) CUSTOMER) (users s')
  = Z.of_nat (List.length (users s')) - 1.
Proof.
  intros s ann s'.
  assert (Hreach : reachable example_sha256 example_HS256 false false s').
  { apply (reachable_step example_sha256 example_HS256 false false s s').
    - apply reachable_startup.
    - apply step_register. }
  split; [exact Hreach|].
  destruct (reachable_single_admin example_sha256 example_HS256 false false s' Hreach)
    as (Hadmins & _ & Hcustomers).
  split; [exact Hadmins|exact Hcustomers].
Defined.

Lemma reachable_login_only_admin_witness :
  let s := init_sample_data example_sha256 empty_db example_uuid4 example_now in
  let credentials := {| UserLogin.email := "admin@cafe.com";
                        UserLogin.password := "admin123" |} in
  let out := (create_token example_HS256 (example_uuid4 7) "admin@cafe.com" "admin"
                (example_now 8),
              User_of_document (bson_user (admin_user example_sha256 (example_uuid4 7) (example_now 7)))) in
  reachable example_sha256 example_HS256 false false s /\
  login example_sha256 example_HS256 s (example_now 8) credentials = (Ok out, s) /\
  User.role (snd out) = ADMIN.
Proof.
  intros s credentials out.
  assert (Hreach : reachable example_sha256 example_HS256 false false s) by apply reachable_startup.
  assert (Hlogin : login example_sha256 example_HS256 s (example_now 8) credentials
                   = (Ok out, s)) by (vm_compute; reflexivity).
  split; [exact Hreach|]. split; [exact Hlogin|].
  destruct (reachable_login_only_admin example_sha256 example_HS256 false false s (example_now 8)
              credentials out s Hreach Hlogin) as (_ & _ & Hrole & _).
  exact Hrole.
Defined.

Lemma reachable_products_available_witness :
  let s := init_sample_data example_sha256 empty_db example_uuid4 example_now in
  reachable example_sha256 example_HS256 false false s /\
  get_products s None = products s.
Proof.
  intros s.
  assert (Hreach : reachable example_sha256 example_HS256 false false s) by apply reachable_startup.
  split; [exact Hreach|].
  destruct (reachable_products_available example_sha256 example_HS256 false false s Hreach) as (_ & Hlist).
  exact Hlist.
Defined.


Lemma reachable_reviews_valid_witness :
  let s := init_sample_data example_sha256 empty_db example_uuid4 example_now in
  let credentials :=
    create_token example_HS256 (example_uuid4 7) "admin@cafe.com" "admin" (example_now 8) in
  let body := {| ReviewCreate.product_id := example_uuid4 3; ReviewCreate.rating := 5;
                 ReviewCreate.comment := "Flaky" |} in
  let r := {| Review.id := "r-1"; Review.product_id := example_uuid4 3;
              Review.user_id := example_uuid4 7; Review.user_name := "Admin User";
              Review.rating := 5; Review.comment := "Flaky";
              Review.created_at := bson_datetime (datetime_now (example_now 10)) |} in
  let s' := snd (route_create_review example_HS256 s (example_now 9) credentials "r-1"
                   (example_now 10) body) in
  reachable example_sha256 example_HS256 false false s' /\
  In r (reviews s') /\
  1 <= Review.rating r <= 5 /\
  exists p, In p (products s') /\ Product.id p = Review.product_id r.
Proof.
  intros s credentials body r s'.
  assert (Hreach : reachable example_sha256 example_HS256 false false s').
  { apply (reachable_step example_sha256 example_HS256 false false s s').
    - apply reachable_startup.
    - apply step_create_review. }
  assert (Hin : In r (reviews s')) by (vm_compute; left; reflexivity).
  split; [exact Hreach|]. split; [exact Hin|].
  destruct (reachable_reviews_valid example_sha256 example_HS256 false false s' r Hreach Hin)
    as (Hrating & Hproduct & _).
  split; [exact Hrating|exact Hproduct].
Defined.

Lemma get_current_user_reads_the_store_witness :
  let s := init_sample_data example_sha256 empty_db example_uuid4 example_now in
  let payload := {| Payload.user_id := Some (example_uuid4 7);
                    Payload.email := Some "admin@cafe.com";
                    Payload.role := Some "admin"; Payload.exp := None |} in
  let payload' := {| Payload.user_id := Some (example_uuid4 7);
                     Payload.email := Some "mallory@example.com";
                     Payload.role := Some "customer"; Payload.exp := None |} in
  jwt_decode example_HS256 (jwt_encode example_HS256 payload SECRET_KEY) SECRET_KEY (example_now 9)
  = Decoded payload /\
  jwt_decode example_HS256 (jwt_encode example_HS256 payload' SECRET_KEY) SECRET_KEY (example_now 9)
  = Decoded payload' /\
  get_current_user example_HS256 s (example_now 9) (jwt_encode example_HS256 payload SECRET_KEY)
  = get_current_user example_HS256 s (example_now 9) (jwt_encode example_HS256 payload' SECRET_KEY).
Proof.
  intros s payload payload'.
  assert (H : jwt_decode example_HS256 (jwt_encode example_HS256 payload SECRET_KEY)
                SECRET_KEY (example_now 9) = Decoded payload) by (vm_compute; reflexivity).
  assert (H' : jwt_decode example_HS256 (jwt_encode example_HS256 payload' SECRET_KEY)
                 SECRET_KEY (example_now 9) = Decoded payload') by (vm_compute; reflexivity).
  split; [exact H|]. split; [exact H'|].
  destruct (get_current_user_reads_the_store example_HS256 s (example_now 9)
              payload payload' H H' eq_refl) as (Hsame & _).
  exact Hsame.
Defined.

Lemma login_then_get_current_user_witness :
  let s := init_sample_data example_sha256 empty_db example_uuid4 example_now in
  let credentials := {| UserLogin.email := "admin@cafe.com";
                        UserLogin.password := "admin123" |} in
  let token := create_token example_HS256 (example_uuid4 7) "admin@cafe.com" "admin"
                 (example_now 8) in
  let admin := User_of_document (bson_user (admin_user example_sha256 (example_uuid4 7) (example_now 7))) in
  login example_sha256 example_HS256 s (example_now 8) credentials = (Ok (token, admin), s) /\
  NoDup (map UserDocument.id (users s)) /\
  0 <= example_now 8 /\
  get_current_user example_HS256 s (example_now 8 + seconds 3600) token = Ok admin.
Proof.
  intros s credentials token admin.
  assert (Hlogin : login example_sha256 example_HS256 s (example_now 8) credentials
                   = (Ok (token, admin), s)) by (vm_compute; reflexivity).
  assert (Hids : NoDup (map UserDocument.id (users s))) by (repeat constructor; intros []).
  assert (Hnow : 0 <= example_now 8) by (vm_compute; discriminate).
  split; [exact Hlogin|]. split; [exact Hids|]. split; [exact Hnow|].
  destruct (login_then_get_current_user example_sha256 example_HS256 s (example_now 8)
              credentials token admin s Hlogin Hids Hnow) as (_ & _ & Hauth).
  apply Hauth. vm_compute. split; discriminate.
Defined.

Lemma register_then_get_current_user_witness :
  let s := init_sample_data example_sha256 empty_db example_uuid4 example_now in
  let ann := {| UserCreate.email := "ann@example.com"; UserCreate.name := "Ann";
                UserCreate.password := "s3cret"; UserCreate.phone := None;
                UserCreate.address := None |} in
  let user_obj := {| User.id := "u-ann"; User.email := "ann@example.com"; User.name := "Ann";
                     User.role := CUSTOMER; User.phone := None; User.address := None;
                     User.created_at := {| instant := 1700000000000008; aware := true |} |} in
  let stored := {| User.id := "u-ann"; User.email := "ann@example.com"; User.name := "Ann";
                   User.role := CUSTOMER; User.phone := None; User.address := None;
                   User.created_at := {| instant := 1700000000000000; aware := false |} |} in
  let token := create_token example_HS256 "u-ann" "ann@example.com" "customer" (example_now 9) in
  let s' := snd (register example_sha256 example_HS256 s "u-ann"
                   (example_now 8) (example_now 9) ann) in
  register example_sha256 example_HS256 s "u-ann" (example_now 8) (example_now 9) ann
  = (Ok (token, user_obj), s') /\
  (forall d, In d (users s) -> UserDocument.id d <> "u-ann") /\
  0 <= example_now 9 /\
  get_current_user example_HS256 s' (example_now 9) token = Ok stored.
Proof.
  intros s ann user_obj stored token s'.
  assert (Hregister : register example_sha256 example_HS256 s "u-ann"
                        (example_now 8) (example_now 9) ann = (Ok (token, user_obj), s'))
    by (vm_compute; reflexivity).
  assert (Hfresh : forall d, In d (users s) -> UserDocument.id d <> "u-ann").
  { intros d [<-|[]]. vm_compute. discriminate. }
  assert (Hnow : 0 <= example_now 9) by (vm_compute; discriminate).
  split; [exact Hregister|]. split; [exact Hfresh|]. split; [exact Hnow|].
  destruct (register_then_get_current_user example_sha256 example_HS256 s "u-ann"
              (example_now 8) (example_now 9) ann token user_obj s' Hregister Hfresh Hnow)
    as (_ & _ & _ & _ & _ & Hauth).
  apply Hauth. vm_compute. split; discriminate.
Defined.

Lemma register_twice_witness :
  let s := init_sample_data example_sha256 empty_db example_uuid4 example_now in
  let ann := {| UserCreate.email := "ann@example.com"; UserCreate.name := "Ann";
                UserCreate.password := "s3cret"; UserCreate.phone := None;
                UserCreate.address := None |} in
  let ann' := {| UserCreate.email := "ann@example.com"; UserCreate.name := "Another Ann";
                 UserCreate.password := "hunter2"; UserCreate.phone := Some "555-0100";
                 UserCreate.address := None |} in
  let out := (create_token example_HS256 "u-ann" "ann@example.com" "customer" (example_now 9),
              {| User.id := "u-ann"; User.email := "ann@example.com"; User.name := "Ann";
                 User.role := CUSTOMER; User.phone := None; User.address := None;
                 User.created_at := datetime_now (example_now 8) |}) in
  let s' := snd (register example_sha256 example_HS256 s "u-ann"
                   (example_now 8) (example_now 9) ann) in
  register example_sha256 example_HS256 s "u-ann" (example_now 8) (example_now 9) ann
  = (Ok out, s') /\
  register example_sha256 example_HS256 s' "u-ann2" (example_now 10) (example_now 11) ann'
  = (Raise (HTTPException 400 "Email already registered"), s').
Proof.
  intros s ann ann' out s'.
  assert (Hregister : register example_sha256 example_HS256 s "u-ann"
                        (example_now 8) (example_now 9) ann = (Ok out, s'))
    by (vm_compute; reflexivity).
  split; [exact Hregister|].
  exact (register_twice example_sha256 example_HS256 s "u-ann" "u-ann2"
           (example_now 8) (example_now 9) (example_now 10) (example_now 11)
           ann ann' out s' Hregister eq_refl).
Defined.

Lemma expired_token_stays_expired_witness :
  let s := init_sample_data example_sha256 empty_db example_uuid4 example_now in
  let token := create_token example_HS256 (example_uuid4 7) "admin@cafe.com" "admin"
                 (example_now 8) in
  let expiry := example_now 8 + seconds 86400 in
  expiry <= expiry + seconds 3600 /\
  get_current_user example_HS256 s expiry token
  = Raise (HTTPException 401 "Token expired") /\
  get_current_user example_HS256 s (expiry + seconds 3600) token
  = Raise (HTTPException 401 "Token expired").
Proof.
  intros s token expiry.
  assert (Hle : expiry <= expiry + seconds 3600) by (vm_compute; discriminate).
  assert (Hexpired : get_current_user example_HS256 s expiry token
                     = Raise (HTTPException 401 "Token expired")) by (vm_compute; reflexivity).
  split; [exact Hle|]. split; [exact Hexpired|].
  destruct (expired_token_stays_expired example_HS256 s token expiry
              (expiry + seconds 3600) Hle) as (Hstays & _).
  exact (Hstays Hexpired).
Defined.


Lemma create_product_then_lookup_witness :
  let s := init_sample_data example_sha256 empty_db example_uuid4 example_now in
  let admin := User_of_document (bson_user (admin_user example_sha256 (example_uuid4 7) (example_now 7))) in
  let scone key calories :=
    {| ProductCreate.name := "Scone"; ProductCreate.description := "Plain scone";
       ProductCreate.price := 2.75%float; ProductCreate.category := PASTRY;
       ProductCreate.image_url := "https://example.com/scone.png";
       ProductCreate.ingredients := ["flour"; "butter"];
       ProductCreate.nutritional_info := [(key, AnyInt calories)] |} in
  User.role admin = ADMIN /\
  (forall p, In p (products s) -> Product.id p <> "p-scone") /\
  bson_dict true (ProductCreate.nutritional_info (scone "calories" 300)) = None /\
  (exists product_obj s',
      create_product true s "p-scone" (example_now 9) (scone "calories" 300) admin
      = (Ok product_obj, s') /\
      get_product s' "p-scone" = Ok (bson_product product_obj) /\
      Product.created_at (bson_product product_obj)
      = {| instant := 1700000000000000; aware := false |}) /\
  bson_dict false (ProductCreate.nutritional_info (scone "calories" (2 ^ 63)))
  = Some OverflowError /\
  create_product false s "p-scone" (example_now 9) (scone "calories" (2 ^ 63)) admin
  = (Raise OverflowError, s) /\
  bson_dict true (ProductCreate.nutritional_info (scone "vitamin.c" 2))
  = Some InvalidDocument /\
  create_product true s "p-scone" (example_now 9) (scone "vitamin.c" 2) admin
  = (Raise InvalidDocument, s) /\
  bson_dict false (ProductCreate.nutritional_info (scone "vitamin.c" 2)) = None.
Proof.
  intros s admin scone.
  assert (Hrole : User.role admin = ADMIN) by reflexivity.
  assert (Hfresh : forall p, In p (products s) -> Product.id p <> "p-scone").
  { intros p Hp. vm_compute in Hp.
    repeat (destruct Hp as [<-|Hp]; [vm_compute; discriminate|]). destruct Hp. }
  assert (Hencoded : bson_dict true (ProductCreate.nutritional_info (scone "calories" 300))
                     = None) by (vm_compute; reflexivity).
  assert (Hwide : bson_dict false (ProductCreate.nutritional_info (scone "calories" (2 ^ 63)))
                  = Some OverflowError) by (vm_compute; reflexivity).
  assert (Hdot : bson_dict true (ProductCreate.nutritional_info (scone "vitamin.c" 2))
                 = Some InvalidDocument) by (vm_compute; reflexivity).
  split; [exact Hrole|]. split; [exact Hfresh|]. split; [exact Hencoded|].
  split; [|split; [exact Hwide|split; [|split; [exact Hdot|split]]]].
  - destruct (create_product_then_lookup true s "p-scone" (example_now 9)
                (scone "calories" 300) admin Hrole Hfresh) as (Hcreated & _).
    destruct (Hcreated Hencoded)
      as (product_obj & s' & Hcreate & _ & _ & _ & _ & Hget & Hat & _).
    exists product_obj, s'. split; [exact Hcreate|]. split; [exact Hget|exact Hat].
  - destruct (create_product_then_lookup false s "p-scone" (example_now 9)
                (scone "calories" (2 ^ 63)) admin Hrole Hfresh) as (_ & Hrefused).
    destruct (Hrefused OverflowError Hwide) as (_ & Hraise).
    exact Hraise.
  - destruct (create_product_then_lookup true s "p-scone" (example_now 9)
                (scone "vitamin.c" 2) admin Hrole Hfresh) as (_ & Hrefused).
    destruct (Hrefused InvalidDocument Hdot) as (_ & Hraise).
    exact Hraise.
  - vm_compute. reflexivity.
Defined.

Lemma create_order_accepts_empty_order_witness :
  let s := init_sample_data example_sha256 empty_db example_uuid4 example_now in
  let ann := {| User.id := "u-ann"; User.email := "ann@example.com"; User.name := "Ann";
                User.role := CUSTOMER; User.phone := None; User.address := None;
                User.created_at := datetime_now (example_now 8) |} in
  let order := {| OrderCreate.items := []; OrderCreate.delivery_address := None;
                  OrderCreate.special_instructions := None |} in
  OrderCreate.items order = [] /\
  exists o s',
    create_order false s "o-1" (example_now 10) (example_now 11) order ann = (Ok o, s') /\
    Order.total_amount o = 0%float.
Proof.
  intros s ann order.
  split; [reflexivity|].
  destruct (create_order_accepts_empty_order false s "o-1" (example_now 10) (example_now 11)
              order ann eq_refl) as (o & Hcreate & _ & Htotal & _).
  exists o. eexists. split; [exact Hcreate|exact Htotal].
Defined.

Lemma update_order_status_unknown_id_witness :
  let s := init_sample_data example_sha256 empty_db example_uuid4 example_now in
  let admin := User_of_document (bson_user (admin_user example_sha256 (example_uuid4 7) (example_now 7))) in
  User.role admin = ADMIN /\
  find_one (fun o => String.eqb (Order.id o) "o-404") (orders s) = None /\
  update_order_status s (example_now 9) "o-404" CANCELLED admin
  = (Raise (HTTPException 404 "Order not found"), s).
Proof.
  intros s admin.
  split; [reflexivity|]. split; [reflexivity|].
  exact (update_order_status_unknown_id s (example_now 9) "o-404" CANCELLED admin
           eq_refl eq_refl).
Defined.

Lemma create_review_twice_witness :
  let s := init_sample_data example_sha256 empty_db example_uuid4 example_now in
  let admin := User_of_document (bson_user (admin_user example_sha256 (example_uuid4 7) (example_now 7))) in
  let review := {| ReviewCreate.product_id := example_uuid4 3; ReviewCreate.rating := 4;
                   ReviewCreate.comment := "Flaky" |} in
  let r := {| Review.id := "r-1"; Review.product_id := example_uuid4 3;
              Review.user_id := example_uuid4 7; Review.user_name := "Admin User";
              Review.rating := 4; Review.comment := "Flaky";
              Review.created_at := datetime_now (example_now 10) |} in
  let s1 := snd (create_review s "r-1" (example_now 10) review admin) in
  create_review s "r-1" (example_now 10) review admin = (Ok r, s1) /\
  exists r' s2,
    create_review s1 "r-2" (example_now 11) review admin = (Ok r', s2) /\
    reviews s2 = (reviews s ++ [bson_review r; bson_review r'])%list /\
    Review.created_at (bson_review r) = {| instant := 1700000000000000; aware := false |}.
Proof.
  intros s admin review r s1.
  assert (H : create_review s "r-1" (example_now 10) review admin = (Ok r, s1))
    by (vm_compute; reflexivity).
  split; [exact H|].
  destruct (create_review_twice s "r-1" "r-2" (example_now 10) (example_now 11)
              review admin r s1 H) as (r' & s2 & Hagain & Hreviews & _ & _ & Hat & _).
  exists r', s2. split; [exact Hagain|]. split; [exact Hreviews|exact Hat].
Defined.

Lemma search_ignores_case_witness :
  let s := init_sample_data example_sha256 empty_db example_uuid4 example_now in
  literal "CRO" = true /\ literal "cro" = true /\
  lowercase "CRO" = lowercase "cro" /\
  text_catalog s = true /\
  search_products s "CRO" = search_products s "cro".
Proof.
  intros s.
  assert (H1 : literal "CRO" = true) by (vm_compute; reflexivity).
  assert (H2 : literal "cro" = true) by (vm_compute; reflexivity).
  assert (H3 : lowercase "CRO" = lowercase "cro") by (vm_compute; reflexivity).
  assert (H4 : text_catalog s = true) by (vm_compute; reflexivity).
  split; [exact H1|]. split; [exact H2|]. split; [exact H3|]. split; [exact H4|].
  exact (search_ignores_case s "CRO" "cro" H1 H2 H3 H4).
Defined.

Lemma search_empty_query_witness :
  let s := init_sample_data example_sha256 empty_db example_uuid4 example_now in
  text_catalog s = true /\
  search_products s EmptyString = Some (get_products s None).
Proof.
  intros s.
  assert (H : text_catalog s = true) by (vm_compute; reflexivity).
  split; [exact H|].
  exact (search_empty_query s H).
Defined.

Lemma dashboard_counts_follow_writes_witness :
  let s := init_sample_data example_sha256 empty_db example_uuid4 example_now in
  let admin := User_of_document (bson_user (admin_user example_sha256 (example_uuid4 7) (example_now 7))) in
  let st := {| total_products := 7; total_orders := 0; total_users := 0;
               pending_orders := 0 |} in
  let ann := {| UserCreate.email := "ann@example.com"; UserCreate.name := "Ann";
                UserCreate.password := "s3cret"; UserCreate.phone := None;
                UserCreate.address := None |} in
  let out := (create_token example_HS256 "u-ann" "ann@example.com" "customer" (example_now 9),
              {| User.id := "u-ann"; User.email := "ann@example.com"; User.name := "Ann";
                 User.role := CUSTOMER; User.phone := None; User.address := None;
                 User.created_at := datetime_now (example_now 8) |}) in
  let s' := snd (register example_sha256 example_HS256 s "u-ann"
                   (example_now 8) (example_now 9) ann) in
  get_dashboard_stats s admin = Ok st /\
  register example_sha256 example_HS256 s "u-ann" (example_now 8) (example_now 9) ann
  = (Ok out, s') /\
  get_dashboard_stats s' admin
  = Ok {| total_products := 7; total_orders := 0; total_users := 0 + 1;
          pending_orders := 0 |}.
Proof.
  intros s admin st ann out s'.
  assert (Hstats : get_dashboard_stats s admin = Ok st) by (vm_compute; reflexivity).
  assert (Hregister : register example_sha256 example_HS256 s "u-ann"
                        (example_now 8) (example_now 9) ann = (Ok out, s'))
    by (vm_compute; reflexivity).
  split; [exact Hstats|]. split; [exact Hregister|].
  destruct (dashboard_counts_follow_writes example_sha256 example_HS256 false s admin st Hstats)
    as (_ & Hafter).
  exact (Hafter "u-ann" (example_now 8) (example_now 9) ann out s' Hregister).
Defined.

Lemma create_order_rejects_wide_quantities_witness :
  let s := init_sample_data example_sha256 empty_db example_uuid4 example_now in
  let ann := {| User.id := "u-ann"; User.email := "ann@example.com"; User.name := "Ann";
                User.role := CUSTOMER; User.phone := None; User.address := None;
                User.created_at := datetime_now (example_now 8) |} in
  let wide := {| OrderItem.product_id := example_uuid4 0; OrderItem.quantity := 2 ^ 63;
                 OrderItem.price := 2.50%float; OrderItem.product_name := "Espresso" |} in
  let order := {| OrderCreate.items := [wide]; OrderCreate.delivery_address := None;
                  OrderCreate.special_instructions := None |} in
  bson_int64 (OrderItem.quantity wide) = false /\
  create_order false s "o-1" (example_now 10) (example_now 11) order ann = (Raise OverflowError, s).
Proof.
  intros s ann wide order.
  assert (H : bson_int64 (OrderItem.quantity wide) = false) by (vm_compute; reflexivity).
  split; [exact H|].
  destruct (create_order_rejects_wide_quantities false s "o-1" (example_now 10) (example_now 11)
              order ann) as (_ & Hwide).
  exact (Hwide wide (or_introl eq_refl) H).
Defined.

Lemma get_orders_isolation_witness :
  let ann := {| User.id := "u-ann"; User.email := "ann@example.com"; User.name := "Ann";
                User.role := CUSTOMER; User.phone := None; User.address := None;
                User.created_at := datetime_now (example_now 8) |} in
  let order_of (id owner : string) (created : Z) :=
    {| Order.id := id; Order.user_id := owner; Order.items := [];
       Order.total_amount := 0%float; Order.status := PENDING;
       Order.payment_method := "card"; Order.delivery_address := None;
       Order.special_instructions := None;
       Order.created_at := {| instant := created; aware := false |};
       Order.updated_at := {| instant := created; aware := false |} |} in
  let s := {| users := []; products := [];
              orders := [order_of "o-1" "u-ann" 1000; order_of "o-2" "u-bob" 2000;
                         order_of "o-3" "u-ann" 3000];
              reviews := [] |} in
  map Order.id (get_orders s ann) = ["o-3"; "o-1"] /\
  ~ In (order_of "o-2" "u-bob" 2000) (get_orders s ann).
Proof.
  intros ann order_of s.
  split; [vm_compute; reflexivity|].
  destruct (get_orders_isolation s ann) as (Hiff & _).
  intros Hin. apply Hiff in Hin as [_ Howner].
  specialize (Howner eq_refl). discriminate Howner.
Defined.
